(** * Query gateway in front of a vector store: filter compiler, value
      normalizer and the [/query] handler of [claude-api.py].

    The development is a shallow embedding of the handler.  Parsed JSON
    (what [request.json] yields) is the inductive [json]; Python dicts are
    finite maps ([gmap string _]); the values the Weaviate client returns are
    [pyval]; exceptions are the [Raise] result of a small error monad; the
    calls made to the Weaviate client are recorded in a trace.

    The distance of a row and its score are Python floats: they are the
    kernel's IEEE 754 binary64 floats, and [1.0 - distance] is their
    subtraction.  A float that is only carried (a number of the request, a
    property value) is the rational it denotes.  [str.lower], which is
    Unicode-aware, is a field of the class [runtime]. *)

From Stdlib Require Import QArith Floats.
From stdpp Require Import gmap strings list fin_maps.

Set Warnings "-register-all".
Local Open Scope string_scope.
Local Open Scope list_scope.

(** ** Parsed JSON *)

Inductive json : Type :=
  | JNull
  | JBool (b : bool)
  | JInt (z : Z)
  | JFloat (q : Q)
  | JStr (s : string)
  | JArr (items : list json)
  | JObj (members : gmap string json).

(** Python truthiness ([if x], [not x]) of a parsed JSON value. *)
Definition truthy (v : json) : bool :=
  match v with
  | JNull => false
  | JBool b => b
  | JInt z => negb (Z.eqb z 0)
  | JFloat q => negb (Z.eqb (Qnum q) 0)
  | JStr s => negb (String.eqb s "")
  | JArr l => match l with [] => false | _ :: _ => true end
  | JObj m => negb (Nat.eqb (size m) 0)
  end.

(** [type(v).__name__], as it shows in the message of an [AttributeError]. *)
Definition type_name (v : json) : string :=
  match v with
  | JNull => "NoneType"
  | JBool _ => "bool"
  | JInt _ => "int"
  | JFloat _ => "float"
  | JStr _ => "str"
  | JArr _ => "list"
  | JObj _ => "dict"
  end.

Definition isinstance_dict (v : json) : bool :=
  match v with JObj _ => true | _ => false end.
Definition isinstance_list (v : json) : bool :=
  match v with JArr _ => true | _ => false end.
Definition isinstance_str (v : json) : bool :=
  match v with JStr _ => true | _ => false end.
Definition is_None (v : json) : bool :=
  match v with JNull => true | _ => false end.

(** The elements a [for] loop visits when [v] is a list. *)
Definition elements_of (v : json) : list json :=
  match v with JArr l => l | _ => [] end.

(** ** Exceptions and the error monad *)

Inductive exn : Type :=
  | AttributeError (ty attr : string)    (* 'ty' object has no attribute 'attr' *)
  | IntConversionError (v : json)        (* TypeError / ValueError out of int(v) *)
  | BackendException (msg : string)      (* raised by the Weaviate client; msg = str(e) *)
  | EmptyFilterList                      (* raised by Filter.all_of / any_of on [] *)
  | SerializationError (msg : string).   (* raised by jsonify; msg = str(e) *)

Inductive result (A : Type) : Type :=
  | Ok (a : A)
  | Raise (e : exn).
Arguments Ok {A} a.
Arguments Raise {A} e.

#[global] Instance result_ret : MRet result := fun _ a => Ok a.
#[global] Instance result_bind : MBind result := fun _ _ f r =>
  match r with
  | Ok a => f a
  | Raise e => Raise e
  end.

(** [obj.get(key, default)]: defined on dicts only. *)
Definition py_get (obj : json) (key : string) (dflt : json) : result json :=
  match obj with
  | JObj m => Ok (default dflt (m !! key))
  | _ => Raise (AttributeError (type_name obj) "get")
  end.

(** ** The Python runtime *)

Definition ascii_lower_char (c : Ascii.ascii) : Ascii.ascii :=
  let n := Ascii.nat_of_ascii c in
  if (65 <=? n)%nat && (n <=? 90)%nat then Ascii.ascii_of_nat (n + 32) else c.

(** Lower-casing of the letters A to Z. *)
Fixpoint ascii_lower (s : string) : string :=
  match s with
  | EmptyString => EmptyString
  | String c s' => String (ascii_lower_char c) (ascii_lower s')
  end.

(** The string holds ASCII characters only. *)
Fixpoint is_ascii (s : string) : bool :=
  match s with
  | EmptyString => true
  | String c s' => (Ascii.nat_of_ascii c <? 128)%nat && is_ascii s'
  end.

(** [lower] is [str.lower].  It is Unicode-aware (the Kelvin sign lowers to
    the letter k), and all that is taken of it is what it does on ASCII
    strings. *)
Class runtime : Type := {
  lower : string -> string;
  lower_on_ascii : forall s, is_ascii s = true -> lower s = ascii_lower s
}.

Section Model.
Context `{R : runtime}.

(** [v.lower()]: defined on strings only. *)
Definition py_lower (v : json) : result string :=
  match v with
  | JStr s => Ok (lower s)
  | _ => Raise (AttributeError (type_name v) "lower")
  end.

(** ** Weaviate filters

    [wq.Filter.by_property(field).equal(value)] and its siblings belong to
    the client library and are kept as one free constructor; [AllOf] and
    [AnyOf] are the library's [_FilterAnd] and [_FilterOr]. *)

Inductive comparison : Type :=
  | Equal | NotEqual | GreaterThan | GreaterOrEqual
  | LessThan | LessOrEqual | Like.

Inductive wfilter : Type :=
  | ByProperty (field : json) (cmp : comparison) (value : json)
  | AllOf (filters : list wfilter)
  | AnyOf (filters : list wfilter).

(** [wq.Filter.all_of(filters)] of the client library: a lone filter is
    returned as it is, the empty list is refused, and two filters or more
    are put under one [_FilterAnd]. *)
Definition all_of (filters : list wfilter) : result wfilter :=
  match filters with
  | [] => Raise EmptyFilterList
  | [f] => Ok f
  | _ => Ok (AllOf filters)
  end.

(** [wq.Filter.any_of(filters)], likewise with [_FilterOr]. *)
Definition any_of (filters : list wfilter) : result wfilter :=
  match filters with
  | [] => Raise EmptyFilterList
  | [f] => Ok f
  | _ => Ok (AnyOf filters)
  end.

(** Keys of the [supported_ops] dict. *)
Definition supported_ops : list string :=
  ["eq"; "neq"; "gt"; "gte"; "lt"; "lte"; "like"].

Definition in_supported_ops (op : string) : bool :=
  existsb (String.eqb op) supported_ops.

(** One turn of [for cond in conditions_input]: the list of filters
    appended to [filter_conditions] (none when the condition is skipped). *)
Definition filter_condition (cond : json) : result (list wfilter) :=
  field ← py_get cond "field" JNull;
  op_raw ← py_get cond "operator" (JStr "");
  op ← py_lower op_raw;
  value ← py_get cond "value" JNull;
  if negb (truthy field) || negb (in_supported_ops op) || is_None value
  then Ok []
  else
    if String.eqb op "eq" then Ok [ByProperty field Equal value]
    else if String.eqb op "neq" then Ok [ByProperty field NotEqual value]
    else if String.eqb op "gt" then Ok [ByProperty field GreaterThan value]
    else if String.eqb op "gte" then Ok [ByProperty field GreaterOrEqual value]
    else if String.eqb op "lt" then Ok [ByProperty field LessThan value]
    else if String.eqb op "lte" then Ok [ByProperty field LessOrEqual value]
    else if String.eqb op "like" then
      if isinstance_str value then Ok [ByProperty field Like value]
      else Ok []
    else Ok [].

(** The whole loop, threading [filter_conditions]; an exception in one turn
    leaves the loop. *)
Fixpoint filter_loop (conds : list json) (filter_conditions : list wfilter)
  : result (list wfilter) :=
  match conds with
  | [] => Ok filter_conditions
  | cond :: rest =>
      added ← filter_condition cond;
      filter_loop rest (filter_conditions ++ added)
  end.

(** "Build Weaviate Filter": from [filters_input] to [weaviate_filter]. *)
Definition build_weaviate_filter (filters_input : json) : result (option wfilter) :=
  if truthy filters_input && isinstance_dict filters_input then
    conditions_input ← py_get filters_input "conditions" (JArr []);
    operator_raw ← py_get filters_input "operator" (JStr "And");
    operator_type ← py_lower operator_raw;
    if truthy conditions_input && isinstance_list conditions_input then
      filter_conditions ← filter_loop (elements_of conditions_input) [];
      match filter_conditions with
      | [] => Ok None
      | _ :: _ =>
          if String.eqb operator_type "or"
          then weaviate_filter ← any_of filter_conditions; Ok (Some weaviate_filter)
          else weaviate_filter ← all_of filter_conditions; Ok (Some weaviate_filter)
      end
    else Ok None
  else Ok None.

(** ** Values returned by the Weaviate client

    A property value is a Python object.  [PList] and [PDict] are instances of
    [list] and [dict] (or of a subclass), [PAtom] is any other object.
    [attrs] holds the attributes [hasattr]/[getattr] find on the object next
    to those of its built-in type: it is empty for plain built-in values, and
    a [GeoCoordinate] is
    [PAtom (AObject "GeoCoordinate") {[ "latitude" := _; "longitude" := _ ]}].
    A [datetime] is identified by what [isoformat()] returns on it, a
    [uuid.UUID] by what [str()] returns on it. *)

Inductive atom : Type :=
  | ANone
  | ABool (b : bool)
  | AInt (z : Z)
  | AFloat (q : Q)
  | AStr (s : string)
  | ADatetime (iso : string)
  | AUuid (canonical : string)
  | AObject (cls : string).

Inductive pyval : Type :=
  | PAtom (a : atom) (attrs : gmap string pyval)
  | PList (items : list pyval) (attrs : gmap string pyval)
  | PDict (entries : gmap string pyval) (attrs : gmap string pyval).

Definition PStr (s : string) : pyval := PAtom (AStr s) ∅.

Definition attrs_of (v : pyval) : gmap string pyval :=
  match v with
  | PAtom _ attrs | PList _ attrs | PDict _ attrs => attrs
  end.

Definition getattr (v : pyval) (name : string) : option pyval :=
  attrs_of v !! name.

Definition hasattr (v : pyval) (name : string) : bool :=
  match getattr v name with Some _ => true | None => false end.

(** [isinstance(value, datetime)], with the [isoformat()] of the match. *)
Definition as_datetime (v : pyval) : option string :=
  match v with PAtom (ADatetime iso) _ => Some iso | _ => None end.

(** [isinstance(value, uuid.UUID)], with the [str()] of the match. *)
Definition as_uuid (v : pyval) : option string :=
  match v with PAtom (AUuid s) _ => Some s | _ => None end.

Definition is_list (v : pyval) : bool :=
  match v with PList _ _ => true | _ => false end.
Definition is_dict (v : pyval) : bool :=
  match v with PDict _ _ => true | _ => false end.

(** [{"latitude": value.latitude, "longitude": value.longitude}] *)
Definition geo_dict (la lo : pyval) : pyval :=
  PDict {[ "latitude" := la; "longitude" := lo ]} ∅.

Fixpoint process_single_value (value : pyval) : pyval :=
  match as_datetime value with
  | Some iso => PStr iso
  | None =>
    match as_uuid value with
    | Some s => PStr s
    | None =>
      match getattr value "latitude", getattr value "longitude" with
      | Some la, Some lo => geo_dict la lo
      | _, _ =>
        match value with
        | PList items _ => PList (process_single_value <$> items) ∅
        | PDict entries _ => PDict (process_single_value <$> entries) ∅
        | PAtom _ _ => value
        end
      end
    end
  end.

(** The body of the loop of [process_properties], for one [value]. *)
Definition process_property (value : pyval) : pyval :=
  match as_datetime value with
  | Some iso => PStr iso
  | None =>
    match as_uuid value with
    | Some s => PStr s
    | None =>
      match getattr value "latitude", getattr value "longitude" with
      | Some la, Some lo => geo_dict la lo
      | _, _ =>
        if is_list value || is_dict value then
          match value with
          | PList items _ => PList (process_single_value <$> items) ∅
          | PDict entries _ => PDict (process_single_value <$> entries) ∅
          | PAtom _ _ => value
          end
        else value
      end
    end
  end.

(** [properties] is [None] or a dict; both [None] and the empty dict are
    falsy and give the empty dict. *)
Definition process_properties (properties : option (gmap string pyval))
  : gmap string pyval :=
  match properties with
  | None => ∅
  | Some props =>
      if Nat.eqb (size props) 0 then ∅ else process_property <$> props
  end.

(** *** The backend's value universe

    Section 3 of the specification: a geo-coordinate has a latitude and a
    longitude that are numbers.  [backend_value v] holds when, in [v] and in
    the elements of its lists and dicts, every value exposing both accessors
    holds plain numbers there. *)

Definition is_number (v : pyval) : bool :=
  match v with
  | PAtom (AInt _) attrs | PAtom (AFloat _) attrs => Nat.eqb (size attrs) 0
  | _ => false
  end.

Definition geo_numeric (v : pyval) : bool :=
  match getattr v "latitude", getattr v "longitude" with
  | Some la, Some lo => is_number la && is_number lo
  | _, _ => true
  end.

Fixpoint backend_value (v : pyval) : bool :=
  geo_numeric v &&
  match v with
  | PAtom _ _ => true
  | PList items _ => forallb backend_value items
  | PDict entries _ =>
      map_fold (fun _ x acc => backend_value x && acc) true entries
  end.

(** Size of a value, for induction through lists and dicts. *)
Fixpoint pyval_size (v : pyval) : nat :=
  match v with
  | PAtom _ _ => 1
  | PList items _ => S (foldr (fun x n => pyval_size x + n)%nat 0%nat items)
  | PDict entries _ =>
      S (map_fold (fun _ x n => pyval_size x + n)%nat 0%nat entries)
  end.

(** ** The [/query] handler *)

(** [obj.metadata] of a returned object. *)
Record metadata : Type := { md_distance : option float }.

(** One object of [response.objects]; [obj_uuid] is [str(obj.uuid)]. *)
Record wobject : Type := {
  obj_properties : option (gmap string pyval);
  obj_metadata : option metadata;
  obj_uuid : string
}.

(** One element of the JSON array the handler answers with. *)
Record search_result : Type := {
  properties : gmap string pyval;
  score : float;
  distance : option float;
  uuid : string
}.

(** The [error] strings of the handler; [CollectionNotFound name] stands for
    the f-string [Collection '{name}' not found]. *)
Inductive error_message : Type :=
  | BodyMustBeJson          (* Request body must be JSON *)
  | MissingRequiredFields   (* Missing required fields: 'collection_name' and 'query' *)
  | ExcludeFieldsNotList    (* 'exclude_fields' must be a list of strings *)
  | CollectionNotFound (collection_name : json)
  | FailedToAccessCollection
  | InternalServerError.

(** [details], when present, is [str(e)] of the exception kept here. *)
Inductive body : Type :=
  | ErrorBody (error : error_message) (details : option exn)
  | ResultsBody (results : list search_result).

Record response : Type := { status : nat; payload : body }.

(** A handle on a collection, as [client.collections.get] returns it. *)
Inductive collection : Type := Collection (name : string).

(** What a call out of this file does: it returns, or it raises an
    exception [e] with [str(e) = msg]. *)
Inductive answer (A : Type) : Type :=
  | Returns (a : A)
  | Fails (msg : string).
#[global] Arguments Returns {A} a.
#[global] Arguments Fails {A} msg.

(** What the handler takes from outside this file: the Weaviate client
    ([client.collections.get], [collection.query.near_text]), the parsing
    done by [int()] on a string, and Flask's [jsonify] on the list of
    results, which raises when a property value left as it came is not
    serializable. *)
Record env : Type := {
  int_of_str : string -> option Z;
  collections_get : json -> answer collection;
  near_text : collection -> json -> Z -> option wfilter -> answer (list wobject);
  jsonify : list search_result -> answer unit
}.

(** The calls made to the Weaviate client, oldest first. *)
Inductive call : Type :=
  | CollectionsGet (name : json)
  | NearText (c : collection) (query : json) (limit : Z) (filters : option wfilter).

(** Control flow inside the [try] block: go on, [return] a response, or
    raise. *)
Inductive flow (A : Type) : Type :=
  | Next (a : A)
  | Return (r : response)
  | Raised (e : exn).
#[global] Arguments Next {A} a.
#[global] Arguments Return {A} r.
#[global] Arguments Raised {A} e.

Definition handler (A : Type) : Type := list call -> flow A * list call.

#[global] Instance handler_ret : MRet handler := fun _ a tr => (Next a, tr).
#[global] Instance handler_bind : MBind handler := fun _ _ f m tr =>
  match m tr with
  | (Next a, tr') => f a tr'
  | (Return r, tr') => (Return r, tr')
  | (Raised e, tr') => (Raised e, tr')
  end.

Definition respond {A} (st : nat) (b : body) : handler A :=
  fun tr => (Return {| status := st; payload := b |}, tr).

Definition lift {A} (r : result A) : handler A :=
  fun tr => match r with Ok a => (Next a, tr) | Raise e => (Raised e, tr) end.

(** A call to the client: recorded, then answered by the environment. *)
Definition invoke {A} (c : call) (r : answer A) : handler A :=
  fun tr => match r with
            | Returns a => (Next a, tr ++ [c])
            | Fails msg => (Raised (BackendException msg), tr ++ [c])
            end.

(** [int(v)] *)
Definition py_int (E : env) (v : json) : result Z :=
  match v with
  | JBool b => Ok (if b then 1 else 0)%Z
  | JInt z => Ok z
  | JFloat q => Ok (Z.quot (Qnum q) (Zpos (Qden q)))
  | JStr s =>
      match int_of_str E s with
      | Some z => Ok z
      | None => Raise (IntConversionError v)
      end
  | _ => Raise (IntConversionError v)
  end.

(** [needle in s] for two strings. *)
Fixpoint contains (needle s : string) : bool :=
  String.prefix needle s ||
  match s with
  | EmptyString => false
  | String _ s' => contains needle s'
  end.

(** "Get Collection": the inner [try] around [client.collections.get] and
    its [except Exception as e], which tests [str(e)]. *)
Definition get_collection (E : env) (collection_name : json) : handler collection :=
  fun tr =>
    let tr' := tr ++ [CollectionsGet collection_name] in
    match collections_get E collection_name with
    | Returns coll => (Next coll, tr')
    | Fails msg =>
        if contains "Not found: Collection" msg || contains "doesn't exist" msg
        then (Return {| status := 404;
                        payload := ErrorBody (CollectionNotFound collection_name)
                                             None |}, tr')
        else (Return {| status := 500;
                        payload := ErrorBody FailedToAccessCollection
                                             (Some (BackendException msg)) |}, tr')
    end.

(** [jsonify(results)]: not a call to the client, so not recorded. *)
Definition serialize (E : env) (results : list search_result) : handler unit :=
  fun tr => match jsonify E results with
            | Returns _ => (Next tt, tr)
            | Fails msg => (Raised (SerializationError msg), tr)
            end.

(** [k in exclude_fields]: list membership by [==]; a string equals no
    value of another type. *)
Definition py_eq_str (k : string) (v : json) : bool :=
  match v with JStr s => String.eqb k s | _ => false end.

Definition in_exclude_fields (exclude_fields : list json) (k : string) : bool :=
  existsb (py_eq_str k) exclude_fields.

(** The body of [for obj in response.objects]. *)
Definition search_result_of (exclude_fields : list json) (obj : wobject)
  : search_result :=
  let props := process_properties (obj_properties obj) in
  let filtered_properties :=
    if truthy (JArr exclude_fields)
    then filter (fun kv => in_exclude_fields exclude_fields kv.1 = false) props
    else props in
  let dist :=
    match obj_metadata obj with
    | Some md =>
        match md_distance md with
        | Some d => Some d
        | None => None
        end
    | None => None
    end in
  let sc := match dist with Some d => (1 - d)%float | None => 0%float end in
  {| properties := filtered_properties;
     score := sc;
     distance := dist;
     uuid := obj_uuid obj |}.

(** The [try] block of [query_collection]. *)
Definition query_body (E : env) (data : json) : handler response :=
  if negb (truthy data) then respond 400 (ErrorBody BodyMustBeJson None) else
  collection_name ← lift (py_get data "collection_name" JNull);
  query_text ← lift (py_get data "query" JNull);
  if negb (truthy collection_name) || negb (truthy query_text)
  then respond 400 (ErrorBody MissingRequiredFields None) else
  top_k_raw ← lift (py_get data "top_k" (JInt 5));
  top_k ← lift (py_int E top_k_raw);
  exclude_fields ← lift (py_get data "exclude_fields" (JArr []));
  if negb (isinstance_list exclude_fields)
  then respond 400 (ErrorBody ExcludeFieldsNotList None) else
  filters_input ← lift (py_get data "filters" JNull);
  coll ← get_collection E collection_name;
  weaviate_filter ← lift (build_weaviate_filter filters_input);
  objects ← invoke (NearText coll query_text top_k weaviate_filter)
                   (near_text E coll query_text top_k weaviate_filter);
  let results := search_result_of (elements_of exclude_fields) <$> objects in
  _ ← serialize E results;
  respond 200 (ResultsBody results).

(** [query_collection]: the response, and the calls made to the client.
    The outer [except Exception] turns what was raised into a 500. *)
Definition query_collection (E : env) (data : json) : response * list call :=
  match query_body E data [] with
  | (Next r, tr) => (r, tr)
  | (Return r, tr) => (r, tr)
  | (Raised e, tr) =>
      ({| status := 500; payload := ErrorBody InternalServerError (Some e) |}, tr)
  end.


(** ** The [/health] endpoint *)

(** The two calls [health_check] makes to the client. *)
Inductive probe : Type :=
  | GetMeta
  | IsReady.

(** The client as [health_check] sees it: [client.get_meta()] and
    [client.is_ready()]. *)
Record health_env : Type := {
  get_meta : answer json;
  is_ready : answer bool
}.

(** The JSON bodies of [/health]; [UnhealthyException e] stands for
    [{"status": "unhealthy", "message": str(e)}]. *)
Inductive health_body : Type :=
  | Healthy (weaviate_version : json)
  | UnhealthyNotReady
  | UnhealthyException (e : exn).

Definition of_answer {A} (r : answer A) : result A :=
  match r with
  | Returns a => Ok a
  | Fails msg => Raise (BackendException msg)
  end.

(** [health_check]: the status, the body and the calls made, oldest first. *)
Definition health_check (H : health_env) : nat * health_body * list probe :=
  match of_answer (get_meta H) with
  | Raise e => (500, UnhealthyException e, [GetMeta])
  | Ok meta =>
      match of_answer (is_ready H) with
      | Raise e => (500, UnhealthyException e, [GetMeta; IsReady])
      | Ok true =>
          match py_get meta "version" JNull with
          | Ok version => (200, Healthy version, [GetMeta; IsReady])
          | Raise e => (500, UnhealthyException e, [GetMeta; IsReady])
          end
      | Ok false => (503, UnhealthyNotReady, [GetMeta; IsReady])
      end
  end.

(** ** Connecting at start-up *)

(** What the module-level [try] block takes from outside: the environment
    variable [PASSWORD], [weaviate.connect_to_local] (with the API key made
    from the password), [client.connect()] and [client.get_meta()]. *)
Record boot_env : Type := {
  getenv_password : option string;
  connect_to_local : string -> answer unit;
  connect : answer unit;
  boot_get_meta : answer json
}.

Inductive boot_call : Type :=
  | ConnectToLocal (api_key : string)
  | Connect
  | BootGetMeta.

(** The exception caught by the [except] and chained to the
    [ConnectionError] raised in its place. *)
Inductive boot_cause : Type :=
  | PasswordNotFound                  (* the ValueError of the block itself *)
  | ClientRaised (msg : string)       (* raised by the client *)
  | HostnameKeyError                  (* meta['hostname'] on a dict without the key *)
  | MetaNotSubscriptable (ty : string). (* meta['hostname'] on a value that is no dict *)

Inductive boot_outcome : Type :=
  | Connected (hostname : json)
  | ConnectionError (cause : boot_cause).

(** [meta['hostname']] *)
Definition hostname_of (meta : json) : boot_cause + json :=
  match meta with
  | JObj m =>
      match m !! "hostname" with
      | Some h => inr h
      | None => inl HostnameKeyError
      end
  | _ => inl (MetaNotSubscriptable (type_name meta))
  end.

(** The module-level connection block: its outcome and the calls made. *)
Definition connect_at_startup (B : boot_env) : boot_outcome * list boot_call :=
  match getenv_password B with
  | None => (ConnectionError PasswordNotFound, [])
  | Some password =>
      if String.eqb password "" then (ConnectionError PasswordNotFound, [])
      else
        match connect_to_local B password with
        | Fails msg =>
            (ConnectionError (ClientRaised msg), [ConnectToLocal password])
        | Returns _ =>
            match connect B with
            | Fails msg =>
                (ConnectionError (ClientRaised msg),
                 [ConnectToLocal password; Connect])
            | Returns _ =>
                match boot_get_meta B with
                | Fails msg =>
                    (ConnectionError (ClientRaised msg),
                     [ConnectToLocal password; Connect; BootGetMeta])
                | Returns meta =>
                    match hostname_of meta with
                    | inl cause =>
                        (ConnectionError cause,
                         [ConnectToLocal password; Connect; BootGetMeta])
                    | inr h =>
                        (Connected h,
                         [ConnectToLocal password; Connect; BootGetMeta])
                    end
                end
            end
        end
  end.
(** * Specification-side definitions *)

(** *** Classification, as section 4.1 of the specification words it

    The kinds in their priority order and what it means for a value to be of
    a kind, read off the value itself: its constructor and the attributes it
    exposes. *)

Inductive kind : Type :=
  | Timestamp | Identifier | GeoPoint | Sequence | Mapping | Unchanged.

(** The order of the tests; the last kind takes what no other kind took. *)
Definition priority : list kind :=
  [Timestamp; Identifier; GeoPoint; Sequence; Mapping; Unchanged].

(** The attributes a value exposes. *)
Definition accessors (v : pyval) : gmap string pyval :=
  match v with
  | PAtom _ exposed => exposed
  | PList _ exposed => exposed
  | PDict _ exposed => exposed
  end.

Definition matches (v : pyval) (k : kind) : bool :=
  match k with
  | Timestamp => match v with PAtom (ADatetime _) _ => true | _ => false end
  | Identifier => match v with PAtom (AUuid _) _ => true | _ => false end
  | GeoPoint =>
      match accessors v !! "latitude", accessors v !! "longitude" with
      | Some _, Some _ => true
      | _, _ => false
      end
  | Sequence => match v with PList _ _ => true | _ => false end
  | Mapping => match v with PDict _ _ => true | _ => false end
  | Unchanged => true
  end.

(** What the specification asks of the output [out] for a value [v] treated
    as kind [k]: the ISO-8601 string of the timestamp, the string form of
    the identifier, the mapping of the two accessors, the elements
    normalized in their order, the values normalized under the same keys,
    or the value itself. *)
Definition normalized_as (k : kind) (v out : pyval) : Prop :=
  match k with
  | Timestamp =>
      exists iso exposed,
        v = PAtom (ADatetime iso) exposed /\ out = PAtom (AStr iso) ∅
  | Identifier =>
      exists s exposed,
        v = PAtom (AUuid s) exposed /\ out = PAtom (AStr s) ∅
  | GeoPoint =>
      exists la lo,
        accessors v !! "latitude" = Some la /\
        accessors v !! "longitude" = Some lo /\
        out = PDict {[ "latitude" := la; "longitude" := lo ]} ∅
  | Sequence =>
      exists items exposed,
        v = PList items exposed /\
        out = PList (process_single_value <$> items) ∅
  | Mapping =>
      exists entries exposed out_entries,
        v = PDict entries exposed /\ out = PDict out_entries ∅ /\
        dom out_entries = dom entries /\
        forall key, out_entries !! key = process_single_value <$> entries !! key
  | Unchanged => out = v
  end.

(** *** Filter conditions, as section 4.2 of the specification words them *)

(** The value bound to [key] is a string, or [key] is absent. *)
Definition str_or_absent (m : gmap string json) (key : string) : bool :=
  match m !! key with
  | None | Some (JStr _) => true
  | Some _ => false
  end.

(** The operator of a condition, lower-cased; the empty string when the
    condition names none. *)
Definition condition_operator (m : gmap string json) : string :=
  match m !! "operator" with
  | Some (JStr s) => lower s
  | _ => ""
  end.

(** The fixed operator table of step 4. *)
Definition operator_table : list (string * comparison) :=
  [("eq", Equal); ("neq", NotEqual); ("gt", GreaterThan);
   ("gte", GreaterOrEqual); ("lt", LessThan); ("lte", LessOrEqual);
   ("like", Like)].

Fixpoint comparison_named (op : string) (table : list (string * comparison))
  : option comparison :=
  match table with
  | [] => None
  | (name, cmp) :: table' =>
      if String.eqb op name then Some cmp else comparison_named op table'
  end.

Definition unsupported_operator (m : gmap string json) : bool :=
  match comparison_named (condition_operator m) operator_table with
  | Some _ => false
  | None => true
  end.

Definition missing_or_empty_field (m : gmap string json) : bool :=
  match m !! "field" with
  | None => true
  | Some f => negb (truthy f)
  end.

Definition null_or_absent_value (m : gmap string json) : bool :=
  match m !! "value" with
  | None | Some JNull => true
  | Some _ => false
  end.

Definition like_on_non_string (m : gmap string json) : bool :=
  String.eqb (condition_operator m) "like" &&
  match m !! "value" with
  | Some (JStr _) => false
  | _ => true
  end.

(** The conditions the compiler must skip. *)
Definition invalid_condition (m : gmap string json) : bool :=
  unsupported_operator m || missing_or_empty_field m
  || null_or_absent_value m || like_on_non_string m.

(** A condition written as the grammar has it: an object whose operator,
    when given, is a string. *)
Definition condition_object (c : json) : bool :=
  match c with
  | JObj m => str_or_absent m "operator"
  | _ => false
  end.

(** A condition object that is invalid. *)
Definition skipped_condition (c : json) : bool :=
  match c with
  | JObj m => str_or_absent m "operator" && invalid_condition m
  | _ => false
  end.

(** The per-field comparison of a surviving condition (steps 2 to 4). *)
Definition spec_comparison (c : json) : option wfilter :=
  match c with
  | JObj m =>
      if invalid_condition m then None
      else
        match m !! "field", comparison_named (condition_operator m) operator_table,
              m !! "value" with
        | Some f, Some cmp, Some v => Some (ByProperty f cmp v)
        | _, _, _ => None
        end
  | _ => None
  end.

(** The surviving comparisons, in the order of the conditions. *)
Definition surviving (conds : list json) : list wfilter :=
  omap spec_comparison conds.

(** [spec.operator] equals "or", case-insensitively. *)
Definition operator_is_or (spec : gmap string json) : bool :=
  match spec !! "operator" with
  | Some (JStr s) => String.eqb (lower s) "or"
  | _ => false
  end.

(** Step 6: one flat group over the comparisons [cs], in their order; a
    lone comparison stands for itself. *)
Definition flat_group (is_or : bool) (cs : list wfilter) : wfilter :=
  match cs with
  | [f] => f
  | _ => if is_or then AnyOf cs else AllOf cs
  end.

(** The specification with its [conditions] replaced. *)
Definition with_conditions (spec : gmap string json) (conds : list json) : json :=
  JObj (<["conditions" := JArr conds]> spec).

(** *** Distance metadata *)

(** The distance the backend supplied for a row, if any. *)
Definition backend_distance (obj : wobject) : option float :=
  md ← obj_metadata obj; md_distance md.

(** [0.0 <= x <= 1.0], in the order of the floats. *)
Definition in_unit_interval (x : float) : Prop :=
  (0 <=? x)%float = true /\ (x <=? 1)%float = true.

(** *** Further predicates *)

(** What one turn of the loop does on any JSON value: the comparison of a
    condition object, or the [AttributeError] of the first access that
    fails. *)
Definition condition_outcome (c : json) : result (list wfilter) :=
  match c with
  | JObj m =>
      match m !! "operator" with
      | None | Some (JStr _) => Ok (option_list (spec_comparison c))
      | Some v => Raise (AttributeError (type_name v) "lower")
      end
  | _ => Raise (AttributeError (type_name c) "get")
  end.

(** A comparison the loop may append: a truthy field, a value that is not
    [None], and a string value under [like]. *)
Definition valid_leaf (f : wfilter) : bool :=
  match f with
  | ByProperty field cmp value =>
      truthy field && negb (is_None value) &&
      match cmp with
      | Like => isinstance_str value
      | _ => true
      end
  | _ => false
  end.

(** A [filters] value that names no condition: not a dict, an empty dict,
    or a dict whose operator is a string or absent and whose [conditions]
    is absent, empty or not a list. *)
Definition names_no_condition (filters_input : json) : bool :=
  match filters_input with
  | JObj m =>
      str_or_absent m "operator" &&
      negb (truthy (default (JArr []) (m !! "conditions")) &&
            isinstance_list (default (JArr []) (m !! "conditions")))
  | _ => true
  end.

(** No [datetime] and no [UUID] object at any position, and every container
    a plain list or dict. *)
Fixpoint free_of_timestamps (v : pyval) : bool :=
  match v with
  | PAtom (ADatetime _) _ | PAtom (AUuid _) _ => false
  | PAtom _ _ => true
  | PList items attrs =>
      Nat.eqb (size attrs) 0 && forallb free_of_timestamps items
  | PDict entries attrs =>
      Nat.eqb (size attrs) 0 &&
      map_fold (fun _ x acc => free_of_timestamps x && acc) true entries
  end.

End Model.

(** * The order of binary64 floats

    [1.0 - x] is computed by the primitive floats of the kernel, which
    [SpecFloat] specifies bit by bit.  To reason on it, a float is read as
    an integer number of units of [2^-1074], the least positive float, of
    which every finite float is a multiple. *)

Section Binary64Values.
Local Open Scope Z_scope.

(** The value of a float in units of [2^-1074]; the infinities stand at
    [2^2098], the first power of two above every finite float, and [nan] has
    no value. *)
Definition ulps (x : spec_float) : option Z :=
  match x with
  | S754_zero _ => Some 0
  | S754_infinity s => Some (if s then - 2 ^ 2098 else 2 ^ 2098)
  | S754_nan => None
  | S754_finite s m e =>
      Some (if s then - (Z.pos m * 2 ^ (e + 1074)) else Z.pos m * 2 ^ (e + 1074))
  end.

(** Round to nearest, ties to even, of [q + rem / unit]. *)
Definition round_half_even (q rem unit : Z) : Z :=
  if 2 * rem <? unit then q
  else if 2 * rem =? unit then (if Z.even q then q else q + 1)
  else q + 1.

(** Rounding of a positive integer to 53 significant bits. *)
Definition nearest (z : Z) : Z :=
  let s := Z.log2 z + 1 - 53 in
  if s <=? 0 then z
  else round_half_even (z / 2 ^ s) (z mod 2 ^ s) (2 ^ s) * 2 ^ s.

(** Overflow gives an infinity. *)
Definition saturate (v : Z) : Z := Z.min v (2 ^ 2098).

Definition signed (s : bool) (v : Z) : Z := if s then - v else v.

(** The rounding of an integer number of units, as [binary_normalize]
    does it. *)
Definition round_ulps (z : Z) : Z :=
  match z with
  | 0 => 0
  | Z.pos _ => saturate (nearest z)
  | Z.neg _ => - saturate (nearest (- z))
  end.

(** The float [1.0]. *)
Definition sf_one : spec_float := S754_finite false 4503599627370496 (-52).

End Binary64Values.

(** * Instances of the runtime and sample inputs *)

(** A runtime for ASCII strings, on which [str.lower] lowers the letters A
    to Z; the strings of the samples below are ASCII. *)
#[global] Instance ascii_strings : runtime :=
  {| lower := ascii_lower;
     lower_on_ascii := fun _ _ => eq_refl |}.

(** The three bytes of the Kelvin sign U+212A in UTF-8, and the letter k. *)
Definition kelvin_1 : Ascii.ascii := Ascii.ascii_of_nat 226.
Definition kelvin_2 : Ascii.ascii := Ascii.ascii_of_nat 132.
Definition kelvin_3 : Ascii.ascii := Ascii.ascii_of_nat 170.
Definition letter_k : Ascii.ascii := Ascii.ascii_of_nat 107.

Definition kelvin_sign : string :=
  String kelvin_1 (String kelvin_2 (String kelvin_3 EmptyString)).

(** A [str.lower] that also knows the Kelvin sign, which lowers to the
    letter k. *)
Fixpoint lower_with_kelvin (s : string) : string :=
  match s with
  | EmptyString => EmptyString
  | String c1 rest =>
      match rest with
      | String c2 (String c3 s') =>
          if Ascii.eqb c1 kelvin_1 && Ascii.eqb c2 kelvin_2 && Ascii.eqb c3 kelvin_3
          then String letter_k (lower_with_kelvin s')
          else String (ascii_lower_char c1) (lower_with_kelvin rest)
      | _ => String (ascii_lower_char c1) (lower_with_kelvin rest)
      end
  end.

(** It is a runtime: on ASCII strings it is [ascii_lower]. *)
Definition kelvin_strings : runtime.
Proof.
  refine {| lower := lower_with_kelvin |}.
  induction s as [|c1 s IH]; [reflexivity|].
  cbn [is_ascii]. intros [Hc Hs]%andb_true_iff.
  assert (Ascii.eqb c1 kelvin_1 = false) as Hne.
  { destruct (Ascii.eqb_spec c1 kelvin_1) as [->|]; [discriminate | reflexivity]. }
  destruct s as [|c2 [|c3 s']]; cbn [lower_with_kelvin ascii_lower] in *;
    rewrite ?Hne; cbn [andb]; f_equal; apply IH; exact Hs.
Defined.

(** A row at cosine distance 1.5 from the query. *)
Definition far_object : wobject :=
  {| obj_properties := Some {[ "title" := PStr "unrelated" ]};
     obj_metadata := Some {| md_distance := Some 1.5%float |};
     obj_uuid := "7f2c0a52-0000-4000-8000-000000000001" |}.

(** A row at distance 0.25. *)
Definition near_object : wobject :=
  {| obj_properties :=
       Some {[ "title" := PStr "hello";
               "meta" := PDict {[ "title" := PStr "inner" ]} ∅ ]};
     obj_metadata := Some {| md_distance := Some 0.25%float |};
     obj_uuid := "7f2c0a52-0000-4000-8000-000000000002" |}.

(** A row at the distance [d], with no property. *)
Definition row_at (d : float) : wobject :=
  {| obj_properties := None;
     obj_metadata := Some {| md_distance := Some d |};
     obj_uuid := "7f2c0a52-0000-4000-8000-000000000004" |}.

(** A client that knows every collection named by a string and answers
    every search with [far_object]; the results serialize. *)
Definition sample_env : env :=
  {| int_of_str := fun _ => None;
     collections_get := fun name =>
       match name with
       | JStr s => Returns (Collection s)
       | _ => Fails "Not found: Collection"
       end;
     near_text := fun _ _ _ _ => Returns [far_object];
     jsonify := fun _ => Returns tt |}.

(** [{"collection_name": "Docs", "query": "hello", "exclude_fields": [1, 2]}] *)
Definition request_numeric_exclude : json :=
  JObj {[ "collection_name" := JStr "Docs"; "query" := JStr "hello";
          "exclude_fields" := JArr [JInt 1; JInt 2] ]}.

(** [{"collection_name": "Docs", "query": "hello",
      "filters": {"conditions": ["year > 2020"]}}] *)
Definition request_string_condition : json :=
  JObj {[ "collection_name" := JStr "Docs"; "query" := JStr "hello";
          "filters" := JObj {[ "conditions" := JArr [JStr "year > 2020"] ]} ]}.

(** [{"collection_name": "Docs", "query": ""}] *)
Definition request_empty_query : gmap string json :=
  {[ "collection_name" := JStr "Docs"; "query" := JStr "" ]}.

(** A property value with a timestamp, a geo-coordinate and a list. *)
Definition sample_property : pyval :=
  PDict {[ "when" := PAtom (ADatetime "2024-05-01T10:00:00+00:00") ∅;
           "where" := PAtom (AObject "GeoCoordinate")
                        {[ "latitude" := PAtom (AFloat (105 # 2)%Q) ∅;
                           "longitude" := PAtom (AInt 13) ∅ ]};
           "tags" := PList [PStr "a";
                            PAtom (AUuid "7f2c0a52-0000-4000-8000-000000000003") ∅]
                           ∅ ]} ∅.

(** A condition object [{"field": f, "operator": op, "value": v}]. *)
Definition condition (f op : string) (v : json) : json :=
  JObj {[ "field" := JStr f; "operator" := JStr op; "value" := v ]}.

(** Conditions the compiler skips: an unknown operator, no field, an empty
    field, a null value, no value, no operator, [like] on a number. *)
Definition sample_invalid_conditions : list json :=
  [ condition "year" "bogus" (JInt 2020);
    JObj {[ "operator" := JStr "eq"; "value" := JInt 1 ]};
    condition "" "eq" (JInt 1);
    condition "year" "eq" JNull;
    JObj {[ "field" := JStr "year"; "operator" := JStr "eq" ]};
    JObj {[ "field" := JStr "year"; "value" := JInt 1 ]};
    condition "title" "LIKE" (JInt 3) ].

(** [{"operator": "OR"}], to which conditions are added. *)
Definition sample_or_spec : gmap string json := {[ "operator" := JStr "OR" ]}.

Definition sample_and_conditions : list json :=
  [ condition "status" "eq" (JStr "active");
    condition "year" "bogus" (JInt 2020);
    condition "year" "GTE" (JInt 2020) ].

(** [{"conditions": [status eq "active", year bogus 2020, year GTE 2020]}],
    with no operator. *)
Definition sample_and_spec : gmap string json :=
  {[ "conditions" := JArr sample_and_conditions ]}.

(** [{"collection_name": "Docs", "query": "hello",
      "filters": {"conditions": [{"field": "year", "operator": "bogus",
                                  "value": 2020}]}}] *)
Definition request_bogus_operator : json :=
  JObj {[ "collection_name" := JStr "Docs"; "query" := JStr "hello";
          "filters" :=
            JObj {[ "conditions" :=
                      JArr [condition "year" "bogus" (JInt 2020)] ]} ]}.

(** [{"field": "year", "operator": 5, "value": 1}]: a condition whose
    operator is a number. *)
Definition condition_numeric_operator : gmap string json :=
  {[ "field" := JStr "year"; "operator" := JInt 5; "value" := JInt 1 ]}.

(** [{"conditions": [{"field": "year", "operator": 5, "value": 1}]}] *)
Definition filters_numeric_operator : gmap string json :=
  {[ "conditions" := JArr [JObj condition_numeric_operator] ]}.

(** [{"collection_name": "Docs", "query": "hello", "filters": ...}] with
    the filters above. *)
Definition request_numeric_operator : gmap string json :=
  {[ "collection_name" := JStr "Docs"; "query" := JStr "hello";
     "filters" := JObj filters_numeric_operator ]}.

(** [{"operator": null,
      "conditions": [{"field": "year", "operator": "gte", "value": 2020}]}] *)
Definition filters_null_operator : gmap string json :=
  {[ "operator" := JNull;
     "conditions" := JArr [condition "year" "gte" (JInt 2020)] ]}.

Definition request_null_operator : gmap string json :=
  {[ "collection_name" := JStr "Docs"; "query" := JStr "hello";
     "filters" := JObj filters_null_operator ]}.

(** An object that is not a geo-coordinate of the backend: its [latitude]
    is a timestamp. *)
Definition dated_accessors : pyval :=
  PAtom (AObject "Sighting")
    {[ "latitude" := PAtom (ADatetime "2024-05-01T10:00:00") ∅;
       "longitude" := PAtom (AFloat 0) ∅ ]}.

(** An instance of a subclass of [list] that carries both accessors. *)
Definition located_list : pyval :=
  PList [PStr "a"] {[ "latitude" := PAtom (AFloat (1 # 2)%Q) ∅;
                      "longitude" := PAtom (AFloat 0) ∅ ]}.

(** The required fields of [request_numeric_exclude], with other fields. *)
Definition docs_request (extra : gmap string json) : gmap string json :=
  <["collection_name" := JStr "Docs"]> (<["query" := JStr "hello"]> extra).

(** A client whose collection "Docs" exists, which answers a search with
    [near_object] then [far_object], and fails on any other collection with
    [msg]; the results serialize. *)
Definition docs_env (msg : string) : env :=
  {| int_of_str := fun _ => None;
     collections_get := fun name =>
       match name with
       | JStr "Docs" => Returns (Collection "Docs")
       | _ => Fails msg
       end;
     near_text := fun _ _ _ _ => Returns [near_object; far_object];
     jsonify := fun _ => Returns tt |}.

(** A client whose searches fail. *)
Definition failing_search_env : env :=
  {| int_of_str := fun _ => None;
     collections_get := fun _ => Returns (Collection "Docs");
     near_text := fun _ _ _ _ => Fails "connection reset";
     jsonify := fun _ => Returns tt |}.

(** A row holding a property the normalizer leaves as it came, and a
    [jsonify] that refuses any list of results but the empty one. *)
Definition phone_object : wobject :=
  {| obj_properties := Some {[ "phone" := PAtom (AObject "PhoneNumber") ∅ ]};
     obj_metadata := None;
     obj_uuid := "7f2c0a52-0000-4000-8000-000000000005" |}.

Definition unserializable_env : env :=
  {| int_of_str := fun _ => None;
     collections_get := fun _ => Returns (Collection "Docs");
     near_text := fun _ _ _ _ => Returns [phone_object];
     jsonify := fun results =>
       match results with
       | [] => Returns tt
       | _ => Fails "Object of type PhoneNumber is not JSON serializable"
       end |}.
(** * Binary64 subtraction keeps the order *)

Section Binary64.
Local Open Scope Z_scope.

(** Number of binary digits. *)
Lemma digits2_pos_bounds (p : positive) :
  2 ^ (Z.pos (digits2_pos p) - 1) <= Z.pos p < 2 ^ Z.pos (digits2_pos p).
Proof.
  induction p as [p IH | p IH |]; simpl digits2_pos.
  - rewrite Pos2Z.inj_succ, Z.pow_succ_r by lia.
    replace (Z.succ (Z.pos (digits2_pos p)) - 1)
      with (Z.succ (Z.pos (digits2_pos p) - 1)) by lia.
    rewrite Z.pow_succ_r by lia. lia.
  - rewrite Pos2Z.inj_succ, Z.pow_succ_r by lia.
    replace (Z.succ (Z.pos (digits2_pos p)) - 1)
      with (Z.succ (Z.pos (digits2_pos p) - 1)) by lia.
    rewrite Z.pow_succ_r by lia. lia.
  - simpl. lia.
Qed.

Lemma digits2_pos_log2 (p : positive) :
  Z.pos (digits2_pos p) = Z.log2 (Z.pos p) + 1.
Proof.
  pose proof (digits2_pos_bounds p) as [Hlo Hhi].
  symmetry. apply Z.add_move_r. apply Z.log2_unique; [lia|].
  replace (Z.succ (Z.pos (digits2_pos p) - 1)) with (Z.pos (digits2_pos p)) by lia.
  lia.
Qed.

(** [iter_pos] is iteration. *)
Lemma iter_pos_iter {A} (f : A -> A) (p : positive) (x : A) :
  SpecFloat.iter_pos f p x = Pos.iter f x p.
Proof.
  revert x. induction p as [p IH | p IH |]; intros x; simpl.
  - rewrite !IH, !Pos.iter_swap. reflexivity.
  - rewrite !IH. reflexivity.
  - reflexivity.
Qed.

Lemma shr_1_spec (m : Z) (r s : bool) :
  0 <= m ->
  shr_1 {| shr_m := m; shr_r := r; shr_s := s |}
  = {| shr_m := Z.div2 m; shr_r := Z.odd m; shr_s := r || s |}.
Proof.
  intros Hm. destruct m as [|[p|p|]|p]; try reflexivity; lia.
Qed.

Lemma shr_iter (X : Z) (k : positive) :
  0 <= X ->
  exists low,
    0 <= low < 2 ^ (Z.pos k - 1) /\
    shr_m (Pos.iter shr_1 {| shr_m := X; shr_r := false; shr_s := false |} k)
    = X / 2 ^ Z.pos k /\
    X mod 2 ^ Z.pos k
    = (if shr_r (Pos.iter shr_1 {| shr_m := X; shr_r := false; shr_s := false |} k)
       then 2 ^ (Z.pos k - 1) else 0) + low /\
    shr_s (Pos.iter shr_1 {| shr_m := X; shr_r := false; shr_s := false |} k)
    = negb (low =? 0).
Proof.
  intros HX. induction k as [|k IH] using Pos.peano_ind.
  - exists 0. cbn [Pos.iter]. rewrite shr_1_spec by exact HX. cbn [shr_m shr_r shr_s].
    rewrite Z.div2_div. change (2 ^ 1) with 2. change (2 ^ 0) with 1.
    repeat split; try lia.
    rewrite Zmod_odd. destruct (Z.odd X); reflexivity.
  - destruct IH as (low & Hlow & Hm & Hrem & Hs).
    rewrite Pos.iter_succ.
    destruct (Pos.iter shr_1 _ k) as [m r s]. cbn [shr_m shr_r shr_s] in Hm, Hrem, Hs.
    assert (0 < 2 ^ Z.pos k) as Hpos by (apply Z.pow_pos_nonneg; lia).
    assert (0 <= m) as Hm0 by (subst m; apply Z.div_pos; lia).
    rewrite shr_1_spec by exact Hm0. cbn [shr_m shr_r shr_s].
    rewrite Pos2Z.inj_succ.
    replace (Z.succ (Z.pos k) - 1) with (Z.pos k) by lia.
    rewrite Z.pow_succ_r by lia.
    assert (2 ^ Z.pos k = 2 * 2 ^ (Z.pos k - 1)) as Hhalf.
    { rewrite <- Z.pow_succ_r by lia. f_equal. lia. }
    exists (X mod 2 ^ Z.pos k).
    split; [apply Z.mod_pos_bound; lia|].
    split.
    { rewrite Z.div2_div, Hm, Z.mul_comm, Z.div_div by lia. reflexivity. }
    split.
    { rewrite (Z.mul_comm 2), Z.rem_mul_r by lia.
      rewrite <- Hm, Zmod_odd. destruct (Z.odd m); ring. }
    rewrite Hrem, Hs. destruct r; cbn [orb].
    + symmetry. apply negb_true_iff, Z.eqb_neq. lia.
    + reflexivity.
Qed.

(** Shifting right by [k] and rounding the lost bits to nearest even. *)
Lemma shr_round (X : Z) (k : positive) :
  0 <= X ->
  let mrs := Pos.iter shr_1 {| shr_m := X; shr_r := false; shr_s := false |} k in
  round_nearest_even (shr_m mrs) (loc_of_shr_record mrs)
  = round_half_even (X / 2 ^ Z.pos k) (X mod 2 ^ Z.pos k) (2 ^ Z.pos k).
Proof.
  intros HX mrs.
  destruct (shr_iter X k HX) as (low & Hlow & Hm & Hrem & Hs).
  fold mrs in Hm, Hrem, Hs.
  assert (2 ^ Z.pos k = 2 * 2 ^ (Z.pos k - 1)) as Hhalf.
  { rewrite <- Z.pow_succ_r by lia. f_equal. lia. }
  unfold round_half_even. rewrite <- Hm, Hrem.
  destruct mrs as [m r s]. cbn [shr_m shr_r shr_s loc_of_shr_record] in *. subst s.
  destruct r; destruct (Z.eqb_spec low 0) as [->|Hne]; cbn [negb round_nearest_even].
  - destruct (Z.ltb_spec (2 * (2 ^ (Z.pos k - 1) + 0)) (2 ^ Z.pos k)); [lia|].
    destruct (Z.eqb_spec (2 * (2 ^ (Z.pos k - 1) + 0)) (2 ^ Z.pos k)); [|lia].
    reflexivity.
  - destruct (Z.ltb_spec (2 * (2 ^ (Z.pos k - 1) + low)) (2 ^ Z.pos k)); [lia|].
    destruct (Z.eqb_spec (2 * (2 ^ (Z.pos k - 1) + low)) (2 ^ Z.pos k)); [lia|].
    reflexivity.
  - destruct (Z.ltb_spec (2 * (0 + 0)) (2 ^ Z.pos k)); [reflexivity|lia].
  - destruct (Z.ltb_spec (2 * (0 + low)) (2 ^ Z.pos k)); [reflexivity|lia].
Qed.

Lemma fexp64 (x : Z) : fexp prec emax x = Z.max (x - 53) (-1074).
Proof. reflexivity. Qed.

Lemma Zdigits2_log2 (z : Z) : 0 < z -> Zdigits2 z = Z.log2 z + 1.
Proof.
  destruct z as [|p|p]; try lia. intros _. apply digits2_pos_log2.
Qed.

Lemma log2_bounds (z : Z) :
  0 < z -> 2 ^ Z.log2 z <= z < 2 ^ (Z.log2 z + 1).
Proof.
  intros Hz. pose proof (Z.log2_spec z Hz) as H.
  replace (Z.log2 z + 1) with (Z.succ (Z.log2 z)) by lia. exact H.
Qed.

Lemma round_half_even_scale (q rem unit c : Z) :
  0 < c ->
  round_half_even q (rem * c) (unit * c) = round_half_even q rem unit.
Proof.
  intros Hc. unfold round_half_even.
  destruct (Z.ltb_spec (2 * (rem * c)) (unit * c)) as [H1|H1];
    destruct (Z.ltb_spec (2 * rem) unit) as [H2|H2]; try reflexivity; try nia.
  destruct (Z.eqb_spec (2 * (rem * c)) (unit * c)) as [H3|H3];
    destruct (Z.eqb_spec (2 * rem) unit) as [H4|H4]; try reflexivity; nia.
Qed.

Lemma round_half_even_range (q rem unit : Z) :
  q <= round_half_even q rem unit <= q + 1.
Proof.
  unfold round_half_even.
  destruct (_ <? _); [lia|]. destruct (_ =? _); [|lia].
  destruct (Z.even q); lia.
Qed.

Lemma round_half_even_exact (q unit : Z) :
  0 < unit -> round_half_even q 0 unit = q.
Proof.
  intros Hu. unfold round_half_even.
  destruct (Z.ltb_spec (2 * 0) unit); [reflexivity|lia].
Qed.

(** [nearest] on a scaled integer. *)
Lemma nearest_exact (m k : Z) :
  0 < m -> 0 <= k -> Z.log2 m + 1 <= 53 ->
  (Z.log2 m + 1 = 53 \/ k = 0) ->
  nearest (m * 2 ^ k) = m * 2 ^ k.
Proof.
  intros Hm Hk Hd Hcases. unfold nearest.
  rewrite Z.log2_mul_pow2 by lia.
  destruct (Z.leb_spec (k + Z.log2 m + 1 - 53) 0) as [Hs|Hs]; [reflexivity|].
  assert (k + Z.log2 m + 1 - 53 = k) as -> by lia.
  assert (0 < 2 ^ k) by (apply Z.pow_pos_nonneg; lia).
  rewrite Z.div_mul, Z.mod_mul, round_half_even_exact by lia. reflexivity.
Qed.

Lemma nearest_shifted (m k s : Z) :
  0 < m -> 0 <= k -> 0 < s -> s = Z.log2 m + 1 - 53 ->
  nearest (m * 2 ^ k)
  = round_half_even (m / 2 ^ s) (m mod 2 ^ s) (2 ^ s) * 2 ^ (s + k).
Proof.
  intros Hm Hk Hs Hdef. unfold nearest.
  rewrite Z.log2_mul_pow2 by lia.
  destruct (Z.leb_spec (k + Z.log2 m + 1 - 53) 0) as [Hle|Hgt]; [lia|].
  replace (k + Z.log2 m + 1 - 53) with (s + k) by lia.
  assert (0 < 2 ^ k) by (apply Z.pow_pos_nonneg; lia).
  assert (0 < 2 ^ s) by (apply Z.pow_pos_nonneg; lia).
  rewrite Z.pow_add_r by lia.
  rewrite Z.div_mul_cancel_r, Z.mul_mod_distr_r by lia.
  rewrite round_half_even_scale by lia. reflexivity.
Qed.

Lemma saturate_below (v : Z) : v < 2 ^ 2098 -> saturate v = v.
Proof. intros H. unfold saturate. apply Z.min_l. lia. Qed.

Lemma saturate_above (v : Z) : 2 ^ 2098 <= v -> saturate v = 2 ^ 2098.
Proof. intros H. unfold saturate. apply Z.min_r. lia. Qed.

Lemma scaled_below (m k : Z) :
  0 < m < 2 ^ 53 -> 0 <= k <= 2045 -> m * 2 ^ k < 2 ^ 2098.
Proof.
  intros Hm Hk.
  assert (0 < 2 ^ k) as Hpos by (apply Z.pow_pos_nonneg; lia).
  assert (2 ^ k <= 2 ^ 2045) as Hle by (apply Z.pow_le_mono_r; lia).
  change (2 ^ 2098) with (2 ^ 53 * 2 ^ 2045).
  revert Hm Hpos Hle.
  generalize (2 ^ k) (2 ^ 53) (2 ^ 2045). intros P A B ? ? ?. nia.
Qed.

Lemma scaled_above (m k : Z) :
  2 ^ 52 <= m -> 2046 <= k -> 2 ^ 2098 <= m * 2 ^ k.
Proof.
  intros Hm Hk.
  assert (2 ^ 2046 <= 2 ^ k) as Hle by (apply Z.pow_le_mono_r; lia).
  change (2 ^ 2098) with (2 ^ 52 * 2 ^ 2046).
  assert (0 < 2 ^ 52) as HA by reflexivity.
  assert (0 < 2 ^ 2046) as HB by reflexivity.
  revert Hm Hle HA HB.
  generalize (2 ^ k) (2 ^ 52) (2 ^ 2046). intros P A B ? ? ? ?. nia.
Qed.

Lemma ulps_infinity (sx : bool) : ulps (S754_infinity sx) = Some (signed sx (2 ^ 2098)).
Proof. destruct sx; reflexivity. Qed.

Lemma ulps_finite (sx : bool) (m : positive) (e : Z) :
  ulps (S754_finite sx m e) = Some (signed sx (Z.pos m * 2 ^ (e + 1074))).
Proof. destruct sx; reflexivity. Qed.

(** The last step of [binary_round_aux]: renormalizing a mantissa that
    rounding took to [2^53], and the overflow test. *)
Lemma renormalize_ulps (sx : bool) (m2 e' : Z) :
  -1074 <= e' -> 0 < m2 <= 2 ^ 53 -> (2 ^ 52 <= m2 \/ e' = -1074) ->
  ulps (let '(mrs, e'') := shr_fexp prec emax m2 e' loc_Exact in
        match shr_m mrs with
        | 0 => S754_zero sx
        | Z.pos m0 =>
            if e'' <=? emax - prec then S754_finite sx m0 e''
            else S754_infinity sx
        | Z.neg _ => S754_nan
        end)
  = Some (signed sx (saturate (m2 * 2 ^ (e' + 1074)))).
Proof.
  intros He Hm2 Hnorm.
  unfold shr_fexp. rewrite fexp64, Zdigits2_log2 by lia.
  cbn [shr_record_of_loc].
  change (emax - prec) with 971.
  destruct (Z.eq_dec m2 (2 ^ 53)) as [->|Hne].
  - change (Z.log2 (2 ^ 53)) with 53.
    replace (Z.max (53 + 1 + e' - 53) (-1074) - e') with 1 by lia.
    change (2 ^ 53) with 9007199254740992.
    cbn [shr SpecFloat.iter_pos shr_1 shr_m].
    replace (9007199254740992 * 2 ^ (e' + 1074))
      with (4503599627370496 * 2 ^ (e' + 1 + 1074)).
    2: { replace (e' + 1 + 1074) with (Z.succ (e' + 1074)) by lia.
         rewrite Z.pow_succ_r by lia. lia. }
    destruct (Z.leb_spec (e' + 1) 971) as [Hle|Hgt].
    + rewrite ulps_finite, saturate_below; [reflexivity|].
      apply scaled_below; [split; reflexivity | lia].
    + rewrite ulps_infinity, saturate_above; [reflexivity|].
      apply scaled_above; [discriminate | lia].
  - assert (m2 < 2 ^ 53) as Hlt by lia.
    pose proof (log2_bounds m2 ltac:(lia)) as Hlog.
    assert (Z.log2 m2 < 53) as Hd.
    { apply Z.log2_lt_pow2; lia. }
    assert (2 ^ 52 <= m2 -> 52 <= Z.log2 m2) as Hd'.
    { intros H. apply Z.log2_le_pow2; lia. }
    replace (Z.max (Z.log2 m2 + 1 + e' - 53) (-1074) - e') with 0 by lia.
    cbn [shr shr_m].
    destruct m2 as [|p|p]; try lia.
    destruct (Z.leb_spec e' 971) as [Hle|Hgt].
    + rewrite ulps_finite, saturate_below; [reflexivity|].
      apply scaled_below; lia.
    + rewrite ulps_infinity, saturate_above; [reflexivity|].
      apply scaled_above; lia.
Qed.

Lemma binary_round_aux_ulps (sx : bool) (m : positive) (e : Z) :
  -1074 <= e ->
  e <= fexp prec emax (Z.pos (digits2_pos m) + e) ->
  ulps (binary_round_aux prec emax sx (Z.pos m) e loc_Exact)
  = Some (signed sx (saturate (nearest (Z.pos m * 2 ^ (e + 1074))))).
Proof.
  intros He Hf. rewrite fexp64, digits2_pos_log2 in Hf.
  pose proof (log2_bounds (Z.pos m) ltac:(lia)) as Hm.
  unfold binary_round_aux.
  change (shr_fexp prec emax (Z.pos m) e loc_Exact)
    with (shr {| shr_m := Z.pos m; shr_r := false; shr_s := false |} e
            (fexp prec emax (Zdigits2 (Z.pos m) + e) - e)).
  rewrite fexp64, Zdigits2_log2 by lia.
  destruct (Z.max (Z.log2 (Z.pos m) + 1 + e - 53) (-1074) - e)
    as [|s|s] eqn:Hshift; try lia.
  - (* the mantissa has at most 53 bits: nothing is lost *)
    cbn [shr shr_m loc_of_shr_record round_nearest_even].
    rewrite renormalize_ulps; try lia.
    + rewrite nearest_exact by lia. reflexivity.
    + split; [lia|]. 
      assert (Z.log2 (Z.pos m) + 1 <= 53) as Hd by lia.
      assert (2 ^ (Z.log2 (Z.pos m) + 1) <= 2 ^ 53)
        by (apply Z.pow_le_mono_r; lia). lia.
    + destruct (Z.eq_dec e (-1074)); [right; assumption|]. 
      left. assert (Z.log2 (Z.pos m) = 52) as Hd by lia.
      rewrite Hd in Hm. lia.
  - (* [s] bits are shifted out and rounded *)
    cbn [shr]. rewrite iter_pos_iter.
    rewrite (shr_round (Z.pos m) s) by lia.
    assert (Z.pos s = Z.log2 (Z.pos m) + 1 - 53) as Hs by lia.
    assert (0 < 2 ^ Z.pos s) as Hpow by (apply Z.pow_pos_nonneg; lia).
    assert (2 ^ 52 <= Z.pos m / 2 ^ Z.pos s < 2 ^ 53) as Hq.
    { assert (2 ^ Z.log2 (Z.pos m) = 2 ^ 52 * 2 ^ Z.pos s) as H1.
      { rewrite <- Z.pow_add_r by lia. f_equal. lia. }
      assert (2 ^ (Z.log2 (Z.pos m) + 1) = 2 ^ 53 * 2 ^ Z.pos s) as H2.
      { rewrite <- Z.pow_add_r by lia. f_equal. lia. }
      split.
      - apply Z.div_le_lower_bound; lia.
      - apply Z.div_lt_upper_bound; lia. }
    pose proof (round_half_even_range (Z.pos m / 2 ^ Z.pos s)
                  (Z.pos m mod 2 ^ Z.pos s) (2 ^ Z.pos s)) as Hr.
    rewrite renormalize_ulps; try lia.
    rewrite (nearest_shifted (Z.pos m) (e + 1074) (Z.pos s)); try lia.
    do 3 f_equal. f_equal. f_equal. lia.
Qed.

Lemma iter_xO (m d : positive) :
  Z.pos (Pos.iter xO m d) = Z.pos m * 2 ^ Z.pos d.
Proof.
  induction d as [|d IH] using Pos.peano_ind.
  - cbn [Pos.iter]. rewrite Pos2Z.inj_xO. change (2 ^ 1) with 2. ring.
  - rewrite Pos.iter_succ, Pos2Z.inj_xO, IH, Pos2Z.inj_succ, Z.pow_succ_r by lia.
    ring.
Qed.

(** Aligning a mantissa on a lower exponent. *)
Lemma shl_align_spec (m : positive) (e e' : Z) :
  snd (shl_align m e e') = Z.min e e' /\
  Z.pos (fst (shl_align m e e')) = Z.pos m * 2 ^ (e - Z.min e e').
Proof.
  unfold shl_align.
  destruct (e' - e) as [|d|d] eqn:Hd; cbn [fst snd].
  - rewrite Z.min_l by lia. rewrite Z.sub_diag. split; [reflexivity | lia].
  - rewrite Z.min_l by lia. rewrite Z.sub_diag. split; [reflexivity | lia].
  - rewrite Z.min_r by lia. split; [reflexivity|].
    rewrite iter_xO. do 2 f_equal. lia.
Qed.

Lemma binary_round_ulps (sx : bool) (p : positive) (e : Z) :
  -1074 <= e ->
  ulps (binary_round prec emax sx p e)
  = Some (signed sx (saturate (nearest (Z.pos p * 2 ^ (e + 1074))))).
Proof.
  intros He. unfold binary_round.
  pose proof (shl_align_spec p e (fexp prec emax (Z.pos (digits2_pos p) + e)))
    as [Hsnd Hfst].
  destruct (shl_align p e _) as [mz ez]. cbn [fst snd] in Hsnd, Hfst.
  rewrite fexp64, digits2_pos_log2 in Hsnd, Hfst.
  rewrite <- Hsnd in Hfst.
  assert (-1074 <= ez) as Hez by lia.
  assert (0 <= e - ez) as Hshift by lia.
  assert (Z.pos mz * 2 ^ (ez + 1074) = Z.pos p * 2 ^ (e + 1074)) as Hval.
  { rewrite Hfst, <- Z.mul_assoc, <- Z.pow_add_r by lia.
    do 2 f_equal. lia. }
  rewrite binary_round_aux_ulps; [rewrite Hval; reflexivity | exact Hez |].
  rewrite fexp64, digits2_pos_log2.
  rewrite Hfst, Z.log2_mul_pow2 by lia. lia.
Qed.

Lemma round_half_even_mono (q rem1 rem2 unit : Z) :
  rem1 <= rem2 ->
  round_half_even q rem1 unit <= round_half_even q rem2 unit.
Proof.
  intros Hrem. unfold round_half_even.
  destruct (Z.ltb_spec (2 * rem1) unit), (Z.ltb_spec (2 * rem2) unit);
    destruct (Z.eqb_spec (2 * rem1) unit), (Z.eqb_spec (2 * rem2) unit);
    destruct (Z.even q); lia.
Qed.

Lemma nearest_range (z : Z) :
  0 < z -> 2 ^ Z.log2 z <= nearest z <= 2 ^ (Z.log2 z + 1).
Proof.
  intros Hz. pose proof (log2_bounds z Hz) as Hlog. unfold nearest.
  destruct (Z.leb_spec (Z.log2 z + 1 - 53) 0) as [Hs|Hs]; [lia|].
  set (s := Z.log2 z + 1 - 53) in *.
  assert (0 < 2 ^ s) as Hpow by (apply Z.pow_pos_nonneg; lia).
  assert (2 ^ Z.log2 z = 2 ^ 52 * 2 ^ s) as H1.
  { rewrite <- Z.pow_add_r by lia. f_equal. lia. }
  assert (2 ^ (Z.log2 z + 1) = 2 ^ 53 * 2 ^ s) as H2.
  { rewrite <- Z.pow_add_r by lia. f_equal. lia. }
  assert (2 ^ 52 <= z / 2 ^ s < 2 ^ 53) as Hq.
  { split; [apply Z.div_le_lower_bound | apply Z.div_lt_upper_bound]; lia. }
  pose proof (round_half_even_range (z / 2 ^ s) (z mod 2 ^ s) (2 ^ s)) as Hr.
  rewrite H1, H2. split; apply Z.mul_le_mono_nonneg_r; lia.
Qed.

Lemma nearest_mono (z1 z2 : Z) :
  0 < z1 -> z1 <= z2 -> nearest z1 <= nearest z2.
Proof.
  intros Hz1 Hle.
  pose proof (Z.log2_le_mono z1 z2 Hle) as Hlog.
  destruct (Z.eq_dec (Z.log2 z1) (Z.log2 z2)) as [Heq|Hne].
  - unfold nearest. rewrite Heq.
    destruct (Z.leb_spec (Z.log2 z2 + 1 - 53) 0) as [Hs|Hs]; [exact Hle|].
    set (s := Z.log2 z2 + 1 - 53) in *.
    assert (0 < 2 ^ s) as Hpow by (apply Z.pow_pos_nonneg; lia).
    apply Z.mul_le_mono_nonneg_r; [lia|].
    pose proof (Z.div_le_mono z1 z2 (2 ^ s) Hpow Hle) as Hq.
    destruct (Z.eq_dec (z1 / 2 ^ s) (z2 / 2 ^ s)) as [Hqeq|Hqne].
    + rewrite Hqeq. apply round_half_even_mono.
      rewrite !Z.mod_eq by lia. rewrite Hqeq. lia.
    + pose proof (round_half_even_range (z1 / 2 ^ s) (z1 mod 2 ^ s) (2 ^ s)).
      pose proof (round_half_even_range (z2 / 2 ^ s) (z2 mod 2 ^ s) (2 ^ s)).
      lia.
  - pose proof (nearest_range z1 Hz1) as [_ H1].
    pose proof (nearest_range z2 ltac:(lia)) as [H2 _].
    assert (2 ^ (Z.log2 z1 + 1) <= 2 ^ Z.log2 z2)
      by (apply Z.pow_le_mono_r; lia).
    lia.
Qed.

Lemma saturate_nearest_pos (z : Z) : 0 < z -> 0 < saturate (nearest z).
Proof.
  intros Hz. pose proof (nearest_range z Hz) as [H _].
  assert (0 < 2 ^ Z.log2 z)
    by (apply Z.pow_pos_nonneg; [lia | apply Z.log2_nonneg]).
  unfold saturate. apply Z.min_glb_lt; [lia | reflexivity].
Qed.

Lemma round_ulps_pos (z : Z) : 0 < z -> round_ulps z = saturate (nearest z).
Proof. destruct z; try lia. reflexivity. Qed.

Lemma round_ulps_neg (z : Z) :
  z < 0 -> round_ulps z = - saturate (nearest (- z)).
Proof. destruct z; try lia. reflexivity. Qed.

(** Rounding keeps the order. *)
Lemma round_ulps_mono (z1 z2 : Z) :
  z1 <= z2 -> round_ulps z1 <= round_ulps z2.
Proof.
  intros Hle.
  destruct (Z.lt_trichotomy z1 0) as [H1|[->|H1]];
    destruct (Z.lt_trichotomy z2 0) as [H2|[->|H2]]; try lia.
  - rewrite (round_ulps_neg z1), (round_ulps_neg z2) by lia.
    assert (nearest (- z2) <= nearest (- z1)) by (apply nearest_mono; lia).
    unfold saturate. lia.
  - rewrite (round_ulps_neg z1) by lia. cbn [round_ulps].
    pose proof (saturate_nearest_pos (- z1) ltac:(lia)). lia.
  - rewrite (round_ulps_neg z1), (round_ulps_pos z2) by lia.
    pose proof (saturate_nearest_pos (- z1) ltac:(lia)).
    pose proof (saturate_nearest_pos z2 ltac:(lia)). lia.
  - rewrite (round_ulps_pos z2) by lia. cbn [round_ulps].
    pose proof (saturate_nearest_pos z2 ltac:(lia)). lia.
  - rewrite (round_ulps_pos z1), (round_ulps_pos z2) by lia.
    assert (nearest z1 <= nearest z2) by (apply nearest_mono; lia).
    unfold saturate. lia.
Qed.

Lemma binary_normalize_ulps (z e : Z) :
  -1074 <= e ->
  ulps (binary_normalize prec emax z e false)
  = Some (round_ulps (z * 2 ^ (e + 1074))).
Proof.
  intros He.
  assert (0 < 2 ^ (e + 1074)) as Hpow by (apply Z.pow_pos_nonneg; lia).
  destruct z as [|p|p]; cbn [binary_normalize].
  - reflexivity.
  - rewrite binary_round_ulps by exact He.
    rewrite round_ulps_pos by (apply Z.mul_pos_pos; lia). reflexivity.
  - rewrite binary_round_ulps by exact He.
    rewrite round_ulps_neg by (apply Z.mul_neg_pos; lia). cbn [signed].
    rewrite <- Z.mul_opp_l. reflexivity.
Qed.

(** What validity says of a finite float. *)
Lemma valid_finite (s : bool) (m : positive) (e : Z) :
  valid_binary (S754_finite s m e) = true ->
  -1074 <= e <= 971 /\
  Z.log2 (Z.pos m) + 1 <= 53 /\
  (Z.log2 (Z.pos m) + 1 = 53 \/ e = -1074).
Proof.
  cbn [SpecFloat.valid_binary]. unfold bounded, canonical_mantissa.
  rewrite fexp64, digits2_pos_log2. change (emax - prec) with 971.
  intros [H1 H2]%andb_true_iff.
  apply Z.eqb_eq in H1. apply Z.leb_le in H2. lia.
Qed.

Lemma finite_mantissa (s : bool) (m : positive) (e : Z) :
  valid_binary (S754_finite s m e) = true ->
  Z.pos m < 2 ^ 53 /\ (e = -1074 \/ 2 ^ 52 <= Z.pos m).
Proof.
  intros (He & Hd & Hn)%valid_finite.
  pose proof (log2_bounds (Z.pos m) ltac:(lia)) as Hm.
  assert (2 ^ (Z.log2 (Z.pos m) + 1) <= 2 ^ 53)
    by (apply Z.pow_le_mono_r; lia).
  split; [lia|].
  destruct Hn as [Hn|Hn]; [right | left; exact Hn].
  replace (Z.log2 (Z.pos m)) with 52 in Hm by lia. lia.
Qed.

Lemma finite_ulps_range (s : bool) (m : positive) (e : Z) :
  valid_binary (S754_finite s m e) = true ->
  0 < Z.pos m * 2 ^ (e + 1074) < 2 ^ 2098.
Proof.
  intros Hv. pose proof (valid_finite s m e Hv) as (He & _).
  pose proof (finite_mantissa s m e Hv) as (Hm & _).
  split.
  - apply Z.mul_pos_pos; [lia | apply Z.pow_pos_nonneg; lia].
  - apply scaled_below; lia.
Qed.

(** On valid finite floats of the same sign, comparing exponents and then
    mantissas compares the values. *)
Lemma finite_compare (s1 s2 : bool) (m1 m2 : positive) (e1 e2 : Z) :
  valid_binary (S754_finite s1 m1 e1) = true ->
  valid_binary (S754_finite s2 m2 e2) = true ->
  match e1 ?= e2 with
  | Lt => Lt
  | Gt => Gt
  | Eq => Pos.compare_cont Eq m1 m2
  end
  = (Z.pos m1 * 2 ^ (e1 + 1074) ?= Z.pos m2 * 2 ^ (e2 + 1074)).
Proof.
  intros Hv1 Hv2.
  pose proof (valid_finite _ _ _ Hv1) as (He1 & _).
  pose proof (valid_finite _ _ _ Hv2) as (He2 & _).
  pose proof (finite_mantissa _ _ _ Hv1) as (Hm1 & Hn1).
  pose proof (finite_mantissa _ _ _ Hv2) as (Hm2 & Hn2).
  assert (0 < 2 ^ (e1 + 1074)) as Hp1 by (apply Z.pow_pos_nonneg; lia).
  assert (0 < 2 ^ (e2 + 1074)) as Hp2 by (apply Z.pow_pos_nonneg; lia).
  destruct (Z.compare_spec e1 e2) as [->|Hlt|Hgt].
  - rewrite <- Zmult_compare_compat_r by lia. reflexivity.
  - symmetry. apply Z.compare_lt_iff.
    assert (2 * 2 ^ (e1 + 1074) <= 2 ^ (e2 + 1074)) as Hstep.
    { rewrite <- Z.pow_succ_r by lia. apply Z.pow_le_mono_r; lia. }
    assert (2 ^ 53 = 2 * 2 ^ 52) as H53 by reflexivity.
    assert (0 < 2 ^ 52) as H52 by reflexivity.
    destruct Hn2 as [Hn2|Hn2]; [lia|].
    revert Hm1 Hn2 Hp1 Hp2 Hstep H53 H52.
    generalize (2 ^ (e1 + 1074)) (2 ^ (e2 + 1074)) (2 ^ 53) (2 ^ 52)
               (Z.pos m1) (Z.pos m2).
    intros. nia.
  - symmetry. apply Z.compare_gt_iff.
    assert (2 * 2 ^ (e2 + 1074) <= 2 ^ (e1 + 1074)) as Hstep.
    { rewrite <- Z.pow_succ_r by lia. apply Z.pow_le_mono_r; lia. }
    assert (2 ^ 53 = 2 * 2 ^ 52) as H53 by reflexivity.
    assert (0 < 2 ^ 52) as H52 by reflexivity.
    destruct Hn1 as [Hn1|Hn1]; [lia|].
    revert Hm2 Hn1 Hp1 Hp2 Hstep H53 H52.
    generalize (2 ^ (e1 + 1074)) (2 ^ (e2 + 1074)) (2 ^ 53) (2 ^ 52)
               (Z.pos m1) (Z.pos m2).
    intros. nia.
Qed.

Lemma leb_compare (a b : Z) :
  (a <=? b) = match a ?= b with Gt => false | _ => true end.
Proof. reflexivity. Qed.

(** [SFleb] on valid floats is the order of their values. *)
Lemma SFleb_ulps (x y : spec_float) :
  valid_binary x = true -> valid_binary y = true ->
  SFleb x y
  = match ulps x, ulps y with
    | Some vx, Some vy => vx <=? vy
    | _, _ => false
    end.
Proof.
  intros Hx Hy.
  destruct x as [sx|sx| |sx mx ex]; try reflexivity;
    destruct y as [sy|sy| |sy my ey]; try reflexivity;
    cbn [ulps];
    try pose proof (finite_ulps_range _ _ _ Hx) as Hrx;
    try pose proof (finite_ulps_range _ _ _ Hy) as Hry;
    assert (0 < 2 ^ 2098) as Hinf by reflexivity;
    set (top := 2 ^ 2098) in *; clearbody top;
    unfold SFleb, SFcompare.
  - destruct sy; symmetry; [apply Z.leb_gt | apply Z.leb_le]; lia.
  - destruct sy; symmetry; [apply Z.leb_gt | apply Z.leb_le]; lia.
  - destruct sx; symmetry; [apply Z.leb_le | apply Z.leb_gt]; lia.
  - destruct sx, sy; symmetry;
      first [apply Z.leb_le; lia | apply Z.leb_gt; lia].
  - destruct sx, sy; symmetry;
      first [apply Z.leb_le; lia | apply Z.leb_gt; lia].
  - destruct sx; symmetry; [apply Z.leb_le | apply Z.leb_gt]; lia.
  - destruct sx, sy; symmetry;
      first [apply Z.leb_le; lia | apply Z.leb_gt; lia].
  - destruct sx, sy.
    + replace (match ex ?= ey with
               | Eq => CompOpp (Pos.compare_cont Eq mx my)
               | Lt => Gt
               | Gt => Lt
               end)
        with (CompOpp (match ex ?= ey with
                       | Lt => Lt
                       | Gt => Gt
                       | Eq => Pos.compare_cont Eq mx my
                       end))
        by (destruct (ex ?= ey); reflexivity).
      rewrite (finite_compare _ _ _ _ _ _ Hx Hy).
      rewrite leb_compare, Z.compare_opp, (Z.compare_antisym _ (Z.pos my * _)).
      destruct (_ ?= _); reflexivity.
    + symmetry. apply Z.leb_le. lia.
    + symmetry. apply Z.leb_gt. lia.
    + rewrite (finite_compare _ _ _ _ _ _ Hx Hy), leb_compare.
      destruct (_ ?= _); reflexivity.
Qed.

Lemma Prim2SF_one : Prim2SF 1%float = sf_one.
Proof. reflexivity. Qed.

(** [1.0 - x] is the exact difference, rounded. *)
Lemma SFsub_one_ulps (x : spec_float) :
  valid_binary x = true ->
  ulps (SF64sub sf_one x)
  = match ulps x with
    | Some vx => Some (round_ulps (2 ^ 1074 - vx))
    | None => None
    end.
Proof.
  intros Hx.
  destruct x as [sx|sx| |sx mx ex]; cbn [ulps].
  - destruct sx; vm_compute; reflexivity.
  - destruct sx; vm_compute; reflexivity.
  - reflexivity.
  - pose proof (valid_finite _ _ _ Hx) as (He & _).
    unfold SF64sub, SFsub, sf_one.
    pose proof (shl_align_spec 4503599627370496 (-52) (Z.min (-52) ex))
      as [_ Hone].
    pose proof (shl_align_spec mx ex (Z.min (-52) ex)) as [_ Hmx].
    rewrite binary_normalize_ulps by lia.
    do 2 f_equal.
    rewrite Z.mul_sub_distr_r. cbn [cond_Zopp].
    rewrite Hone.
    replace (Z.min (-52) (Z.min (-52) ex)) with (Z.min (-52) ex) by lia.
    replace (Z.min ex (Z.min (-52) ex)) with (Z.min (-52) ex) in Hmx by lia.
    assert (4503599627370496 * 2 ^ (-52 - Z.min (-52) ex)
            * 2 ^ (Z.min (-52) ex + 1074) = 2 ^ 1074) as ->.
    { rewrite <- Z.mul_assoc, <- Z.pow_add_r by lia.
      replace (-52 - Z.min (-52) ex + (Z.min (-52) ex + 1074)) with 1022 by lia.
      reflexivity. }
    f_equal.
    assert (Z.pos (fst (shl_align mx ex (Z.min (-52) ex)))
            * 2 ^ (Z.min (-52) ex + 1074) = Z.pos mx * 2 ^ (ex + 1074)) as Hval.
    { rewrite Hmx, <- Z.mul_assoc, <- Z.pow_add_r by lia.
      do 2 f_equal. lia. }
    destruct sx; cbn [cond_Zopp]; rewrite ?Z.mul_opp_l; rewrite Hval;
      reflexivity.
Qed.

(** In binary64, [x |-> 1.0 - x] reverses the order. *)
Theorem sub_one_antitone (a b : float) :
  (a <=? b)%float = true -> (1 - b <=? 1 - a)%float = true.
Proof.
  rewrite !leb_spec, !sub_spec, Prim2SF_one.
  pose proof (Prim2SF_valid a) as Ha.
  pose proof (Prim2SF_valid b) as Hb.
  pose proof (Prim2SF_valid (1 - a)) as Ha'.
  pose proof (Prim2SF_valid (1 - b)) as Hb'.
  rewrite sub_spec, Prim2SF_one in Ha', Hb'.
  rewrite (SFleb_ulps _ _ Ha Hb), (SFleb_ulps _ _ Hb' Ha').
  rewrite (SFsub_one_ulps _ Ha), (SFsub_one_ulps _ Hb).
  destruct (ulps (Prim2SF a)) as [va|]; [|discriminate].
  destruct (ulps (Prim2SF b)) as [vb|]; [|discriminate].
  intros Hle%Z.leb_le. apply Z.leb_le, round_ulps_mono. lia.
Qed.

End Binary64.

(** * Properties *)

Section Properties.
Context `{R : runtime}.

(** ** Induction on property values *)

Lemma pyval_size_item (x : pyval) (items : list pyval) :
  x ∈ items ->
  (pyval_size x <= foldr (fun y n => pyval_size y + n)%nat 0%nat items)%nat.
Proof.
  induction 1 as [x l | x y l _ IH]; simpl; lia.
Qed.

Lemma pyval_size_entry (k : string) (x : pyval) (entries : gmap string pyval) :
  entries !! k = Some x ->
  (pyval_size x <= map_fold (fun _ y n => pyval_size y + n)%nat 0%nat entries)%nat.
Proof.
  intros Hk.
  rewrite (map_fold_delete_L _ _ k x entries); [lia | | exact Hk].
  intros; lia.
Qed.

(** Structural induction that reaches the elements of lists and the values
    of dicts (attributes are not visited by the normalizer). *)
Lemma pyval_nested_ind (P : pyval -> Prop) :
  (forall a attrs, P (PAtom a attrs)) ->
  (forall items attrs, Forall P items -> P (PList items attrs)) ->
  (forall entries attrs,
      map_Forall (fun _ x => P x) entries -> P (PDict entries attrs)) ->
  forall v, P v.
Proof.
  intros Hatom Hlist Hdict v.
  remember (pyval_size v) as n eqn:Hn.
  revert v Hn.
  induction n as [n IH] using lt_wf_ind.
  intros [a attrs | items attrs | entries attrs] Hn.
  - apply Hatom.
  - apply Hlist, Forall_forall. intros x Hx.
    apply (IH (pyval_size x)); [| reflexivity].
    pose proof (pyval_size_item x items Hx). subst n. simpl. lia.
  - apply Hdict. intros k x Hk.
    apply (IH (pyval_size x)); [| reflexivity].
    pose proof (pyval_size_entry k x entries Hk). subst n. simpl. lia.
Qed.

(** ** The normalizer *)

(** The loop body of [process_properties] and [process_single_value] take
    the same decisions. *)
Lemma process_property_single (value : pyval) :
  process_property value = process_single_value value.
Proof.
  destruct value as [a attrs | items attrs | entries attrs];
    unfold process_property; simpl;
    repeat case_match; reflexivity.
Qed.

Lemma process_properties_fmap (properties : option (gmap string pyval)) :
  process_properties properties
  = process_single_value <$> default ∅ properties.
Proof.
  destruct properties as [props|]; simpl.
  - destruct (Nat.eqb (size props) 0) eqn:Hsz.
    + apply Nat.eqb_eq, map_size_empty_iff in Hsz. subst props.
      by rewrite fmap_empty.
    + apply map_fmap_ext. intros ? x _. apply process_property_single.
  - by rewrite fmap_empty.
Qed.

Lemma process_properties_lookup properties (k : string) :
  process_properties properties !! k
  = process_single_value <$> (default ∅ properties !! k).
Proof. by rewrite process_properties_fmap, lookup_fmap. Qed.

(** The tests of [process_single_value] on an atom, a list and a dict
    that exposes both accessors. *)
Lemma process_single_value_geo (v : pyval) (la lo : pyval) :
  matches v Timestamp = false -> matches v Identifier = false ->
  accessors v !! "latitude" = Some la ->
  accessors v !! "longitude" = Some lo ->
  process_single_value v = PDict {[ "latitude" := la; "longitude" := lo ]} ∅.
Proof.
  intros Htime Hid Hla Hlo.
  destruct v as [a exposed | items exposed | entries exposed];
    [destruct a; try discriminate | |];
    simpl in *; unfold getattr; simpl; by rewrite Hla, Hlo.
Qed.

Lemma process_single_value_no_geo (v : pyval) :
  matches v Timestamp = false -> matches v Identifier = false ->
  matches v GeoPoint = false ->
  process_single_value v
  = match v with
    | PList items _ => PList (process_single_value <$> items) ∅
    | PDict entries _ => PDict (process_single_value <$> entries) ∅
    | PAtom _ _ => v
    end.
Proof.
  intros Htime Hid Hgeo.
  destruct v as [a exposed | items exposed | entries exposed];
    [destruct a; try discriminate | |];
    simpl in *; unfold getattr; simpl;
    destruct (exposed !! "latitude"); try reflexivity;
    destruct (exposed !! "longitude"); try reflexivity; discriminate.
Qed.

(** C7. The normalizer classifies by first match in the order timestamp,
    identifier, latitude/longitude accessors, sequence, mapping, and
    otherwise returns the value unchanged: when [k] is the first kind of
    [priority] that the value is of, [process_single_value] gives what the
    specification asks for that kind (the ISO-8601 string of a timestamp,
    the string of an identifier, the mapping of the two accessors, the
    elements or the values normalized in place), whatever later kinds the
    value is of as well; the loop of [process_properties] does the same for
    a top-level property. *)
Theorem normalizer_first_match_wins
    (v : pyval) (earlier rest : list kind) (k : kind) :
  priority = earlier ++ k :: rest ->
  forallb (fun k' => negb (matches v k')) earlier = true ->
  matches v k = true ->
  normalized_as k v (process_single_value v) /\
  normalized_as k v (process_property v).
Proof.
  intros Hsplit Hearlier Hk.
  rewrite process_property_single.
  assert (normalized_as k v (process_single_value v)) as Hnorm; [|by split].
  unfold priority in Hsplit.
  destruct earlier as [|k1 [|k2 [|k3 [|k4 [|k5 [|k6 tail]]]]]];
    simplify_eq/=;
    repeat match goal with
    | H : _ && _ = true |- _ => apply andb_true_iff in H as [? ?]
    | H : negb _ = true |- _ => apply negb_true_iff in H
    end.
  - destruct v as [[] exposed | |]; try discriminate. by eexists _, _.
  - destruct v as [[] exposed | |]; try discriminate. by eexists _, _.
  - destruct (accessors v !! "latitude") as [la|] eqn:Hla; [|discriminate].
    destruct (accessors v !! "longitude") as [lo|] eqn:Hlo; [|discriminate].
    exists la, lo. repeat split; try done.
    by apply process_single_value_geo.
  - rewrite process_single_value_no_geo by done.
    destruct v; try discriminate. by eexists _, _.
  - rewrite process_single_value_no_geo by done.
    destruct v as [| |entries exposed]; try discriminate.
    exists entries, exposed, (process_single_value <$> entries).
    repeat split; [apply dom_fmap_L | intros; apply lookup_fmap].
  - rewrite process_single_value_no_geo by done.
    by destruct v.
  - by destruct tail.
Qed.

(** *** Idempotence *)

Lemma lookup_no_attrs (name : string) : (∅ : gmap string pyval) !! name = None.
Proof. apply lookup_empty. Qed.

Lemma process_single_value_str (s : string) :
  process_single_value (PStr s) = PStr s.
Proof. reflexivity. Qed.

Lemma process_single_value_number (v : pyval) :
  is_number v = true -> process_single_value v = v.
Proof.
  destruct v as [[] attrs | |]; simpl; try discriminate;
    intros Hsz%Nat.eqb_eq%map_size_empty_iff; subst attrs; reflexivity.
Qed.

Lemma process_single_value_geo_dict (la lo : pyval) :
  is_number la = true -> is_number lo = true ->
  process_single_value (geo_dict la lo) = geo_dict la lo.
Proof.
  intros Hla Hlo. unfold geo_dict. simpl. unfold getattr. simpl.
  rewrite fmap_insert, map_fmap_singleton.
  by rewrite !process_single_value_number.
Qed.

Lemma backend_entries (entries : gmap string pyval) :
  map_fold (fun _ x acc => backend_value x && acc) true entries = true ->
  map_Forall (fun _ x => backend_value x = true) entries.
Proof.
  apply (map_fold_weak_ind
           (fun b m => b = true -> map_Forall (fun _ x => backend_value x = true) m)).
  - intros _. apply map_Forall_empty.
  - intros k x m r Hk IH [Hx Hr]%andb_true_iff.
    apply map_Forall_insert_2; auto.
Qed.

(** C6. The normalizer is idempotent on the values of the backend: for
    every value in which latitude/longitude accessors hold numbers,
    normalizing the normalized value changes nothing. *)
Theorem process_single_value_idempotent (x : pyval) :
  backend_value x = true ->
  process_single_value (process_single_value x) = process_single_value x.
Proof.
  induction x as [a attrs | items attrs IH | entries attrs IH]
    using pyval_nested_ind; intros Hbv.
  - simpl in Hbv. apply andb_true_iff in Hbv as [Hgeo _].
    unfold geo_numeric, getattr in Hgeo. simpl in Hgeo.
    destruct a; simpl; try reflexivity; unfold getattr; simpl;
      destruct (attrs !! "latitude") as [la|] eqn:Hla;
      destruct (attrs !! "longitude") as [lo|] eqn:Hlo;
      simpl; unfold getattr; simpl; rewrite ?Hla, ?Hlo; try reflexivity;
      apply andb_true_iff in Hgeo as [? ?];
      by apply process_single_value_geo_dict.
  - simpl in Hbv. apply andb_true_iff in Hbv as [Hgeo Hitems].
    unfold geo_numeric, getattr in Hgeo. simpl in Hgeo.
    simpl. unfold getattr. simpl.
    destruct (attrs !! "latitude") as [la|] eqn:Hla;
      destruct (attrs !! "longitude") as [lo|] eqn:Hlo.
    1: { apply andb_true_iff in Hgeo as [? ?].
         by apply process_single_value_geo_dict. }
    all: simpl; unfold getattr; simpl; f_equal;
      rewrite <- list_fmap_compose; apply list_fmap_ext;
      intros i y Hy; simpl;
      apply (proj1 (Forall_lookup _ _) IH i y Hy);
      apply (proj1 (forallb_forall _ _) Hitems), list_elem_of_In;
      apply (list_elem_of_lookup_2 _ i), Hy.
  - simpl in Hbv. apply andb_true_iff in Hbv as [Hgeo Hentries].
    apply backend_entries in Hentries.
    unfold geo_numeric, getattr in Hgeo. simpl in Hgeo.
    simpl. unfold getattr. simpl.
    destruct (attrs !! "latitude") as [la|] eqn:Hla;
      destruct (attrs !! "longitude") as [lo|] eqn:Hlo.
    1: { apply andb_true_iff in Hgeo as [? ?].
         by apply process_single_value_geo_dict. }
    all: simpl; unfold getattr; simpl; f_equal;
      rewrite <- map_fmap_compose; apply map_fmap_ext;
      intros k y Hy; simpl; apply (IH k y Hy), (Hentries k y Hy).
Qed.

(** ** The filter compiler *)

Lemma lower_empty : lower "" = "".
Proof. by rewrite lower_on_ascii. Qed.

Lemma lower_And : lower "And" = "and".
Proof. by rewrite lower_on_ascii. Qed.

Lemma comparison_named_supported (op : string) :
  in_supported_ops op = true <->
  is_Some (comparison_named op operator_table).
Proof.
  unfold in_supported_ops, supported_ops, operator_table. simpl.
  repeat (destruct (String.eqb op _); [split; eauto |]).
  split; [discriminate | intros []; discriminate].
Qed.

(** One turn of the loop on a condition object: the comparison the
    specification gives it, or nothing. *)
Lemma filter_condition_object (c : json) :
  condition_object c = true ->
  filter_condition c = Ok (option_list (spec_comparison c)).
Proof.
  destruct c as [| | | | | |m]; try discriminate. simpl.
  unfold str_or_absent, filter_condition, spec_comparison, invalid_condition,
    unsupported_operator, missing_or_empty_field, null_or_absent_value,
    like_on_non_string, condition_operator. simpl.
  intros Hop.
  destruct (m !! "operator") as [[| | | |s| |]|] eqn:Hoperator;
    try discriminate; simpl.
  - generalize (lower s) as op. intros op.
    unfold in_supported_ops, supported_ops, operator_table. simpl.
    destruct (m !! "field") as [f|]; simpl;
      [destruct (truthy f); simpl |];
      destruct (m !! "value") as [v|]; simpl;
      repeat match goal with
      | |- context [String.eqb op ?name] =>
          destruct (String.eqb_spec op name) as [->|?]; simpl
      end;
      try reflexivity; destruct v; reflexivity.
  - rewrite lower_empty.
    destruct (m !! "field") as [f|]; simpl; [|reflexivity].
    by destruct (truthy f).
Qed.

Lemma filter_condition_skipped (c : json) :
  skipped_condition c = true -> filter_condition c = Ok [].
Proof.
  intros Hc.
  rewrite filter_condition_object.
  - destruct c; try discriminate. simpl in *.
    apply andb_true_iff in Hc as [_ ->]. reflexivity.
  - destruct c; try discriminate. simpl in *.
    by apply andb_true_iff in Hc as [-> _].
Qed.

Lemma filter_loop_app (l1 l2 : list json) (acc : list wfilter) :
  filter_loop (l1 ++ l2) acc = (acc' ← filter_loop l1 acc; filter_loop l2 acc').
Proof.
  revert acc. induction l1 as [|c l1 IH]; intros acc; simpl; [reflexivity|].
  destruct (filter_condition c) as [added|e]; simpl; [apply IH | reflexivity].
Qed.

Lemma filter_loop_skipped (l : list json) (acc : list wfilter) :
  forallb skipped_condition l = true -> filter_loop l acc = Ok acc.
Proof.
  revert acc. induction l as [|c l IH]; intros acc; simpl; [reflexivity|].
  intros [Hc Hl]%andb_true_iff.
  rewrite (filter_condition_skipped c Hc). simpl.
  rewrite app_nil_r. by apply IH.
Qed.

Lemma filter_loop_objects (l : list json) (acc : list wfilter) :
  forallb condition_object l = true ->
  filter_loop l acc = Ok (acc ++ surviving l).
Proof.
  revert acc. induction l as [|c l IH]; intros acc; simpl.
  - intros _. by rewrite app_nil_r.
  - intros [Hc Hl]%andb_true_iff.
    rewrite (filter_condition_object c Hc). simpl.
    rewrite (IH _ Hl). unfold surviving. simpl.
    destruct (spec_comparison c); simpl; by rewrite <- ?app_assoc.
Qed.

Lemma truthy_object_with (m : gmap string json) (key : string) (v : json) :
  m !! key = Some v -> truthy (JObj m) = true.
Proof.
  intros Hk. simpl. apply negb_true_iff, Nat.eqb_neq.
  intros ->%map_size_empty_iff. by rewrite lookup_empty in Hk.
Qed.

Lemma operator_type_of (spec : gmap string json) :
  str_or_absent spec "operator" = true ->
  exists operator_type,
    py_lower (default (JStr "And") (spec !! "operator")) = Ok operator_type /\
    String.eqb operator_type "or" = operator_is_or spec.
Proof.
  unfold str_or_absent, operator_is_or.
  destruct (spec !! "operator") as [[| | | |s| |]|]; try discriminate; intros _.
  - by exists (lower s).
  - exists "and". simpl. by rewrite lower_And.
Qed.

(** The compiler on a specification object whose [operator] is a string or
    absent and whose [conditions] is a list: the loop, then one group. *)
Lemma build_weaviate_filter_object (spec : gmap string json) (conds : list json) :
  spec !! "conditions" = Some (JArr conds) ->
  str_or_absent spec "operator" = true ->
  build_weaviate_filter (JObj spec)
  = (filter_conditions ← filter_loop conds [];
     Ok (match filter_conditions with
         | [] => None
         | _ :: _ => Some (flat_group (operator_is_or spec) filter_conditions)
         end)).
Proof.
  intros Hconds Hop.
  unfold build_weaviate_filter.
  rewrite (truthy_object_with _ _ _ Hconds). simpl.
  rewrite Hconds. simpl.
  destruct (operator_type_of spec Hop) as (operator_type & -> & Hor). simpl.
  destruct conds as [|c conds]; [reflexivity|].
  cbn [truthy isinstance_list andb elements_of].
  destruct (filter_loop (c :: conds) []) as [[|f [|f' fs]]|e]; simpl;
    try reflexivity; rewrite Hor; by destruct (operator_is_or spec).
Qed.

Lemma str_or_absent_with_conditions spec conds :
  str_or_absent (<["conditions" := JArr conds]> spec) "operator"
  = str_or_absent spec "operator".
Proof. unfold str_or_absent. by rewrite lookup_insert_ne. Qed.

Lemma operator_is_or_with_conditions spec conds :
  operator_is_or (<["conditions" := JArr conds]> spec) = operator_is_or spec.
Proof. unfold operator_is_or. by rewrite lookup_insert_ne. Qed.

Lemma build_weaviate_filter_with (spec : gmap string json) (conds : list json) :
  str_or_absent spec "operator" = true ->
  build_weaviate_filter (with_conditions spec conds)
  = (filter_conditions ← filter_loop conds [];
     Ok (match filter_conditions with
         | [] => None
         | _ :: _ => Some (flat_group (operator_is_or spec) filter_conditions)
         end)).
Proof.
  intros Hop. unfold with_conditions.
  rewrite (build_weaviate_filter_object _ conds).
  - by rewrite operator_is_or_with_conditions.
  - apply lookup_insert_eq.
  - by rewrite str_or_absent_with_conditions.
Qed.

(** X25. Among condition objects whose operator is a string or absent,
    one with an unsupported operator, a missing or empty field, a null or
    absent value, or a non-string value under [like] is skipped: the
    compiled predicate is the one obtained without these conditions, and
    when no other condition is given the compiled predicate is null and
    nothing is raised. *)
Theorem invalid_conditions_are_skipped
    (spec : gmap string json) (before invalids after : list json) :
  str_or_absent spec "operator" = true ->
  forallb skipped_condition invalids = true ->
  build_weaviate_filter (with_conditions spec (before ++ invalids ++ after))
  = build_weaviate_filter (with_conditions spec (before ++ after))
  /\ build_weaviate_filter (with_conditions spec invalids) = Ok None.
Proof.
  intros Hop Hinv. split.
  - rewrite !build_weaviate_filter_with by done.
    rewrite !(filter_loop_app before).
    destruct (filter_loop before []) as [acc|e]; simpl; [|reflexivity].
    rewrite filter_loop_app.
    by rewrite (filter_loop_skipped invalids acc Hinv).
  - rewrite build_weaviate_filter_with by done.
    by rewrite (filter_loop_skipped invalids [] Hinv).
Qed.

Lemma surviving_are_comparisons (conds : list json) :
  Forall (fun f => exists field cmp value, f = ByProperty field cmp value)
         (surviving conds).
Proof.
  unfold surviving. induction conds as [|c conds IH]; simpl; [constructor|].
  destruct (spec_comparison c) as [f|] eqn:Hc; [|exact IH].
  constructor; [|exact IH].
  unfold spec_comparison in Hc.
  destruct c; try discriminate.
  repeat case_match; simplify_eq. eauto.
Qed.

(** X26. For a specification whose operator is a string or absent and
    whose conditions are objects, with at least one surviving condition, the
    compiled predicate is one flat group over the surviving per-field
    comparisons in the order of the conditions, under [any_of] when the
    operator is "or" in any letter case and under [all_of] for every other
    string and when it is absent; a lone surviving comparison stands for
    itself. *)
Theorem surviving_conditions_form_one_group
    (spec : gmap string json) (conds : list json) :
  spec !! "conditions" = Some (JArr conds) ->
  str_or_absent spec "operator" = true ->
  forallb condition_object conds = true ->
  surviving conds <> [] ->
  build_weaviate_filter (JObj spec)
  = Ok (Some (flat_group (operator_is_or spec) (surviving conds)))
  /\ Forall (fun f => exists field cmp value, f = ByProperty field cmp value)
            (surviving conds).
Proof.
  intros Hconds Hop Hobj Hsome. split; [|apply surviving_are_comparisons].
  rewrite (build_weaviate_filter_object spec conds Hconds Hop).
  rewrite (filter_loop_objects conds [] Hobj). simpl.
  destruct (surviving conds) as [|f fs]; [done|]. reflexivity.
Qed.

(** ** Results *)

(** C4. For every row, the emitted result echoes the backend's distance,
    its score is exactly [1.0 - distance], the binary64 subtraction, when
    the backend supplied a distance (zero included) and [0.0] when the
    metadata or the distance is missing. *)
Theorem score_is_one_minus_distance (exclude_fields : list json) (obj : wobject) :
  distance (search_result_of exclude_fields obj) = backend_distance obj /\
  score (search_result_of exclude_fields obj)
  = match backend_distance obj with
    | Some d => (1 - d)%float
    | None => 0%float
    end.
Proof.
  unfold search_result_of, backend_distance. simpl.
  destruct (obj_metadata obj) as [[[d|]]|]; simpl; split; reflexivity.
Qed.

Lemma in_exclude_fields_elem (exclude_fields : list json) (k : string) :
  in_exclude_fields exclude_fields k = true <-> JStr k ∈ exclude_fields.
Proof.
  unfold in_exclude_fields. rewrite existsb_exists. split.
  - intros (v & Hin & Heq). destruct v; try discriminate.
    apply String.eqb_eq in Heq as ->. by apply list_elem_of_In.
  - intros Hin. exists (JStr k). split; [by apply list_elem_of_In|].
    apply String.eqb_refl.
Qed.

Lemma filtered_properties_lookup
    (exclude_fields : list json) (obj : wobject) (k : string) :
  properties (search_result_of exclude_fields obj) !! k
  = if in_exclude_fields exclude_fields k then None
    else process_properties (obj_properties obj) !! k.
Proof.
  unfold search_result_of. cbn [properties].
  destruct exclude_fields as [|x xs]; [reflexivity|].
  cbn [truthy]. generalize (x :: xs) as excl. intros excl.
  rewrite map_lookup_filter.
  destruct (process_properties (obj_properties obj) !! k) as [v|]; simpl.
  - destruct (in_exclude_fields excl k) eqn:Hin.
    + rewrite option_guard_False; [reflexivity | congruence].
    + by rewrite option_guard_True.
  - by destruct (in_exclude_fields excl k).
Qed.

(** C9. Field exclusion removes from the normalized properties of a row
    exactly the top-level keys named in [exclude_fields]: a key that the
    list holds as a string is absent from the emitted properties, and every
    other key keeps the normalized value of the backend's property,
    whatever keys that value holds inside. *)
Theorem exclusion_removes_named_keys_only
    (exclude_fields : list json) (obj : wobject) (k : string) :
  (JStr k ∈ exclude_fields ->
   properties (search_result_of exclude_fields obj) !! k = None) /\
  (JStr k ∉ exclude_fields ->
   properties (search_result_of exclude_fields obj) !! k
   = process_single_value <$> (default ∅ (obj_properties obj) !! k)).
Proof.
  rewrite filtered_properties_lookup, process_properties_lookup.
  split; intros Hk.
  - apply in_exclude_fields_elem in Hk. by rewrite Hk.
  - destruct (in_exclude_fields exclude_fields k) eqn:Hin; [|reflexivity].
    by apply in_exclude_fields_elem in Hin.
Qed.

(** ** Request validation *)

(** C10. A body binding [collection_name] or [query] to the empty string is
    answered with the 400 missing-required-fields response, and the client
    is not called. *)
Theorem empty_required_field_rejected (E : env) (data : gmap string json) :
  data !! "collection_name" = Some (JStr "") \/ data !! "query" = Some (JStr "") ->
  query_collection E (JObj data)
  = ({| status := 400; payload := ErrorBody MissingRequiredFields None |}, []).
Proof.
  intros Hempty.
  assert (truthy (JObj data) = true) as Hdata
    by (destruct Hempty as [H|H]; exact (truthy_object_with _ _ _ H)).
  unfold query_collection, query_body. rewrite Hdata.
  unfold mbind, handler_bind, lift, py_get.
  destruct Hempty as [-> | ->]; simpl; [reflexivity|].
  destruct (truthy (default JNull (data !! "collection_name"))); reflexivity.
Qed.

Ltac run_handler :=
  unfold query_collection, query_body, mbind, handler_bind, lift, invoke,
    get_collection, serialize, respond, py_get.

(** A request that passes validation, on a client that resolves the
    collection and answers the search, gets one result per row, in the
    order of the rows, when the results serialize. *)
Lemma query_collection_rows (E : env) (data : gmap string json)
    (collection_name query_text : json) (top_k : Z) (exclude_fields : list json)
    (coll : collection) (weaviate_filter : option wfilter)
    (objects : list wobject) :
  data !! "collection_name" = Some collection_name ->
  data !! "query" = Some query_text ->
  truthy collection_name = true -> truthy query_text = true ->
  py_int E (default (JInt 5) (data !! "top_k")) = Ok top_k ->
  default (JArr []) (data !! "exclude_fields") = JArr exclude_fields ->
  collections_get E collection_name = Returns coll ->
  build_weaviate_filter (default JNull (data !! "filters")) = Ok weaviate_filter ->
  near_text E coll query_text top_k weaviate_filter = Returns objects ->
  query_collection E (JObj data)
  = (match jsonify E (search_result_of exclude_fields <$> objects) with
     | Returns _ =>
         {| status := 200;
            payload := ResultsBody (search_result_of exclude_fields <$> objects) |}
     | Fails msg =>
         {| status := 500;
            payload := ErrorBody InternalServerError
                         (Some (SerializationError msg)) |}
     end,
     [CollectionsGet collection_name;
      NearText coll query_text top_k weaviate_filter]).
Proof.
  intros Hname Hquery Htname Htquery Htop Hexcl Hget Hfilter Hsearch.
  run_handler.
  rewrite (truthy_object_with _ _ _ Hname), Hname, Hquery. simpl.
  rewrite Htname, Htquery, Htop, Hexcl. simpl.
  rewrite Hget, Hfilter. simpl. rewrite Hsearch. simpl.
  by destruct (jsonify E _).
Qed.

(** A request that passes validation reaches the client: the first call
    resolves the collection, and the answer is not a 400. *)
Lemma validated_request_calls_client (E : env) (data : gmap string json)
    (collection_name query_text : json) (top_k : Z) (exclude_fields : list json) :
  data !! "collection_name" = Some collection_name ->
  data !! "query" = Some query_text ->
  truthy collection_name = true -> truthy query_text = true ->
  py_int E (default (JInt 5) (data !! "top_k")) = Ok top_k ->
  default (JArr []) (data !! "exclude_fields") = JArr exclude_fields ->
  status (query_collection E (JObj data)).1 <> 400 /\
  exists rest,
    (query_collection E (JObj data)).2 = CollectionsGet collection_name :: rest.
Proof.
  intros Hname Hquery Htname Htquery Htop Hexcl.
  run_handler.
  rewrite (truthy_object_with _ _ _ Hname), Hname, Hquery. simpl.
  rewrite Htname, Htquery, Htop, Hexcl. simpl.
  destruct (collections_get E collection_name) as [coll|msg]; simpl.
  - destruct (build_weaviate_filter _) as [weaviate_filter|e]; simpl.
    + destruct (near_text E coll query_text top_k weaviate_filter);
        simpl; [destruct (jsonify E _) |];
        simpl; split; try discriminate; eauto.
    + split; try discriminate; eauto.
  - destruct (_ || _); simpl; split; try discriminate; eauto.
Qed.

(** An exception raised while the filter is built is answered with the 500
    of the outer handler; the search is not run. *)
Lemma filter_exception_is_500 (E : env) (data : gmap string json)
    (collection_name query_text : json) (top_k : Z) (exclude_fields : list json)
    (coll : collection) (e : exn) :
  data !! "collection_name" = Some collection_name ->
  data !! "query" = Some query_text ->
  truthy collection_name = true -> truthy query_text = true ->
  py_int E (default (JInt 5) (data !! "top_k")) = Ok top_k ->
  default (JArr []) (data !! "exclude_fields") = JArr exclude_fields ->
  collections_get E collection_name = Returns coll ->
  build_weaviate_filter (default JNull (data !! "filters")) = Raise e ->
  query_collection E (JObj data)
  = ({| status := 500; payload := ErrorBody InternalServerError (Some e) |},
     [CollectionsGet collection_name]).
Proof.
  intros Hname Hquery Htname Htquery Htop Hexcl Hget Hfilter.
  run_handler.
  rewrite (truthy_object_with _ _ _ Hname), Hname, Hquery. simpl.
  rewrite Htname, Htquery, Htop, Hexcl. simpl.
  rewrite Hget, Hfilter. reflexivity.
Qed.

(** What the check on [exclude_fields] does reject: a value that is not a
    list, once the required fields and [top_k] have passed; the client is
    not called. *)
Lemma exclude_fields_not_list_rejected (E : env) (data : gmap string json)
    (collection_name query_text : json) (top_k : Z) :
  data !! "collection_name" = Some collection_name ->
  data !! "query" = Some query_text ->
  truthy collection_name = true -> truthy query_text = true ->
  py_int E (default (JInt 5) (data !! "top_k")) = Ok top_k ->
  isinstance_list (default (JArr []) (data !! "exclude_fields")) = false ->
  query_collection E (JObj data)
  = ({| status := 400; payload := ErrorBody ExcludeFieldsNotList None |}, []).
Proof.
  intros Hname Hquery Htname Htquery Htop Hexcl.
  run_handler.
  rewrite (truthy_object_with _ _ _ Hname), Hname, Hquery. simpl.
  rewrite Htname, Htquery, Htop, Hexcl. reflexivity.
Qed.

(** C8, at the request [request_numeric_exclude]: a list of numbers passes
    the check on [exclude_fields]; the handler goes on to call the client
    and does not answer 400. *)
Theorem numeric_exclude_fields_reach_backend (E : env) :
  status (query_collection E request_numeric_exclude).1 <> 400 /\
  exists rest,
    (query_collection E request_numeric_exclude).2
    = CollectionsGet (JStr "Docs") :: rest.
Proof.
  unfold request_numeric_exclude.
  apply (validated_request_calls_client E _ (JStr "Docs") (JStr "hello") 5
           [JInt 1; JInt 2]);
    vm_compute; reflexivity.
Qed.

(** C3, at the request [request_string_condition]: a condition that is a
    string makes [cond.get] raise, and the request is answered with the 500
    of the outer handler once the collection has been resolved. *)
Theorem string_condition_fails_request (E : env) (coll : collection) :
  collections_get E (JStr "Docs") = Returns coll ->
  query_collection E request_string_condition
  = ({| status := 500;
        payload := ErrorBody InternalServerError
                     (Some (AttributeError "str" "get")) |},
     [CollectionsGet (JStr "Docs")]).
Proof.
  intros Hget. unfold request_string_condition.
  apply (filter_exception_is_500 E _ (JStr "Docs") (JStr "hello") 5 [] coll);
    first [exact Hget | vm_compute; reflexivity].
Qed.

(** One turn of the loop on a condition that passes every test. *)
Lemma filter_condition_passes
    (m : gmap string json) (f v : json) (s : string) (cmp : comparison) :
  m !! "field" = Some f -> truthy f = true ->
  m !! "operator" = Some (JStr s) ->
  comparison_named (lower s) operator_table = Some cmp ->
  m !! "value" = Some v -> is_None v = false ->
  (cmp = Like -> isinstance_str v = true) ->
  filter_condition (JObj m) = Ok [ByProperty f cmp v].
Proof.
  intros Hf Htf Hop Hcmp Hv Hnone Hlike.
  unfold filter_condition. simpl. rewrite Hf, Hop, Hv. simpl.
  rewrite Htf, Hnone. revert Hcmp. generalize (lower s) as op. intros op.
  unfold in_supported_ops, supported_ops, operator_table. simpl.
  repeat (destruct (String.eqb op _); simpl;
          [intros [= <-]; try reflexivity |]); try discriminate.
  by rewrite Hlike.
Qed.

(** C5, amended. The score of an emitted result lies in [0,1] whenever the
    backend supplied no distance or a distance in [0,1]: the rounded
    difference [1.0 - d] of binary64 does not leave the interval. *)
Theorem score_in_unit_interval (exclude_fields : list json) (obj : wobject) :
  match backend_distance obj with
  | Some d => in_unit_interval d
  | None => True
  end ->
  in_unit_interval (score (search_result_of exclude_fields obj)).
Proof.
  unfold search_result_of, backend_distance, in_unit_interval. simpl.
  destruct (obj_metadata obj) as [[[d|]]|]; simpl; try by intros _.
  intros [Hlow Hhigh]. split.
  - exact (sub_one_antitone d 1 Hhigh).
  - exact (sub_one_antitone 0 d Hlow).
Qed.

(** C1, at the filters [filters_numeric_operator]: the only condition has
    the operator 5, which is unsupported; the loop does not skip it but
    raises at [.lower()], and the request is answered with the 500 of the
    outer handler instead of running the search unfiltered. *)
Theorem numeric_operator_condition_raises (E : env) (coll : collection) :
  collections_get E (JStr "Docs") = Returns coll ->
  unsupported_operator condition_numeric_operator = true /\
  build_weaviate_filter (JObj filters_numeric_operator)
  = Raise (AttributeError "int" "lower") /\
  query_collection E (JObj request_numeric_operator)
  = ({| status := 500;
        payload := ErrorBody InternalServerError
                     (Some (AttributeError "int" "lower")) |},
     [CollectionsGet (JStr "Docs")]).
Proof.
  intros Hget.
  assert (build_weaviate_filter (JObj filters_numeric_operator)
          = Raise (AttributeError "int" "lower")) as Hraise
    by (vm_compute; reflexivity).
  split; [|split; [exact Hraise|]].
  - unfold unsupported_operator, condition_operator, condition_numeric_operator.
    by rewrite lookup_insert_ne, lookup_insert_eq.
  - apply (filter_exception_is_500 E _ (JStr "Docs") (JStr "hello") 5 [] coll);
      first [exact Hget | exact Hraise | vm_compute; reflexivity].
Qed.

(** C2, at the filters [filters_null_operator]: the one condition
    survives, as its turn of the loop shows, and the group operator is
    [null], a value other than "or"; the compiler does not fall back to AND
    but raises at [.lower()], and the request is answered with the 500 of
    the outer handler. *)
Theorem null_group_operator_raises (E : env) (coll : collection) :
  collections_get E (JStr "Docs") = Returns coll ->
  filter_condition (condition "year" "gte" (JInt 2020))
  = Ok [ByProperty (JStr "year") GreaterOrEqual (JInt 2020)] /\
  operator_is_or filters_null_operator = false /\
  build_weaviate_filter (JObj filters_null_operator)
  = Raise (AttributeError "NoneType" "lower") /\
  query_collection E (JObj request_null_operator)
  = ({| status := 500;
        payload := ErrorBody InternalServerError
                     (Some (AttributeError "NoneType" "lower")) |},
     [CollectionsGet (JStr "Docs")]).
Proof.
  intros Hget.
  assert (build_weaviate_filter (JObj filters_null_operator)
          = Raise (AttributeError "NoneType" "lower")) as Hraise
    by (vm_compute; reflexivity).
  split; [|split; [|split; [exact Hraise|]]].
  - apply (filter_condition_passes _ (JStr "year") (JInt 2020) "gte");
      try (vm_compute; reflexivity); [|discriminate].
    by rewrite (lower_on_ascii "gte").
  - unfold operator_is_or, filters_null_operator.
    by rewrite lookup_insert_eq.
  - apply (filter_exception_is_500 E _ (JStr "Docs") (JStr "hello") 5 [] coll);
      first [exact Hget | exact Hraise | vm_compute; reflexivity].
Qed.

(** * Further properties of the code *)

(** ** The filter loop and its exceptions *)

(** X1. One turn of the loop is decided by the shape of the entry alone:
    an entry that is no dict raises at [cond.get], a dict whose operator is
    bound to a non-string raises at [.lower()], and every other dict either
    gives its one comparison or is skipped. *)
Theorem filter_condition_outcome (c : json) :
  filter_condition c = condition_outcome c.
Proof.
  destruct c as [| | | | | |m]; try reflexivity.
  unfold condition_outcome.
  destruct (m !! "operator") as [v|] eqn:Hop.
  - destruct v;
      try (unfold filter_condition; simpl; rewrite Hop; reflexivity).
    apply filter_condition_object. simpl. unfold str_or_absent. by rewrite Hop.
  - apply filter_condition_object. simpl. unfold str_or_absent. by rewrite Hop.
Qed.

(** X2. The loop stops at the first entry that raises: the comparisons
    collected before it and the entries after it are lost, and the whole
    compilation raises that exception. *)
Theorem first_raising_condition_aborts
    (spec : gmap string json) (before after : list json) (c : json) (e : exn) :
  str_or_absent spec "operator" = true ->
  forallb condition_object before = true ->
  filter_condition c = Raise e ->
  build_weaviate_filter (with_conditions spec (before ++ c :: after)) = Raise e.
Proof.
  intros Hop Hbefore Hc.
  rewrite build_weaviate_filter_with by done.
  rewrite filter_loop_app, (filter_loop_objects before [] Hbefore). simpl.
  by rewrite Hc.
Qed.

(** X3. The group operator is lower-cased before the conditions are looked
    at: when [operator] is bound to a value that is no string, the
    compilation raises whatever the conditions are, even with none. *)
Theorem non_string_group_operator_raises (spec : gmap string json) (v : json) :
  spec !! "operator" = Some v ->
  isinstance_str v = false ->
  build_weaviate_filter (JObj spec) = Raise (AttributeError (type_name v) "lower").
Proof.
  intros Hop Hv. unfold build_weaviate_filter.
  rewrite (truthy_object_with _ _ _ Hop). simpl. rewrite Hop. simpl.
  destruct v; try discriminate; reflexivity.
Qed.

(** X4. A [filters] value that names no condition compiles to no filter
    and raises nothing: a value that is no dict (a string, a list, a
    number), the empty dict, and a dict whose [conditions] is absent, empty
    or not a list. *)
Theorem no_condition_no_filter (filters_input : json) :
  names_no_condition filters_input = true ->
  build_weaviate_filter filters_input = Ok None.
Proof.
  destruct filters_input as [| | | | | |m];
    try (intros _; unfold build_weaviate_filter; simpl;
         rewrite ?andb_false_r; reflexivity).
  simpl. intros [Hop Hconds]%andb_true_iff.
  unfold build_weaviate_filter.
  destruct (truthy (JObj m)); [|reflexivity]. simpl.
  destruct (operator_type_of m Hop) as (operator_type & -> & _). simpl.
  apply negb_true_iff in Hconds. by rewrite Hconds.
Qed.

(** ** What a compiled filter looks like *)

Lemma filter_condition_valid (c : json) (added : list wfilter) :
  filter_condition c = Ok added -> forallb valid_leaf added = true.
Proof.
  destruct c as [| | | | | |m]; try discriminate.
  unfold filter_condition. simpl.
  destruct (m !! "operator") as [[| | | |s| |]|]; simpl; try discriminate.
  - generalize (lower s) as op. intros op.
    destruct (truthy (default JNull (m !! "field"))) eqn:Hf; simpl;
      [| by intros [= <-]].
    destruct (in_supported_ops op); simpl; [| by intros [= <-]].
    destruct (is_None (default JNull (m !! "value"))) eqn:Hv; simpl;
      [by intros [= <-] |].
    repeat (destruct (String.eqb op _);
            [intros [= <-]; simpl; by rewrite Hf, Hv |]).
    destruct (String.eqb op "like"); [| by intros [= <-]].
    destruct (isinstance_str (default JNull (m !! "value"))) eqn:Hstr;
      intros [= <-]; simpl; [by rewrite Hf, Hv, Hstr | reflexivity].
  - rewrite lower_empty.
    destruct (truthy (default JNull (m !! "field"))); simpl; by intros [= <-].
Qed.

Lemma filter_loop_valid (conds : list json) (acc out : list wfilter) :
  forallb valid_leaf acc = true ->
  filter_loop conds acc = Ok out ->
  forallb valid_leaf out = true.
Proof.
  revert acc. induction conds as [|c conds IH]; intros acc Hacc; simpl.
  - by intros [= <-].
  - destruct (filter_condition c) as [added|e] eqn:Hc; simpl; [|discriminate].
    apply IH. rewrite forallb_app, Hacc. simpl.
    by apply (filter_condition_valid c).
Qed.

(** X5. Whatever the request holds, a filter that is compiled is built
    from a non-empty list of comparisons, each on a truthy field with a
    value that is not [None] and with a string value under [like]: it is the
    comparison itself when there is one, as [all_of] and [any_of] return a
    lone filter, and one [_FilterOr] or [_FilterAnd] over the list when there
    are two or more.  No group is empty and no group holds a group. *)
Theorem compiled_filter_shape (filters_input : json) (p : wfilter) :
  build_weaviate_filter filters_input = Ok (Some p) ->
  exists cs,
    forallb valid_leaf cs = true /\
    ((cs = [p]) \/ (2 <= length cs /\ (p = AnyOf cs \/ p = AllOf cs))).
Proof.
  unfold build_weaviate_filter.
  destruct (truthy filters_input && isinstance_dict filters_input);
    [|discriminate].
  destruct (py_get filters_input "conditions" (JArr [])) as [conds|];
    simpl; [|discriminate].
  destruct (py_get filters_input "operator" (JStr "And")) as [op|];
    simpl; [|discriminate].
  destruct (py_lower op) as [operator_type|]; simpl; [|discriminate].
  destruct (truthy conds && isinstance_list conds); [|discriminate].
  destruct (filter_loop (elements_of conds) []) as [[|f [|f' fs]]|] eqn:Hloop;
    simpl; try discriminate;
    apply (filter_loop_valid _ [] _ eq_refl) in Hloop;
    destruct (String.eqb operator_type "or"); simpl; intros [= <-];
    eexists; (split; [exact Hloop|]); auto; right; simpl; split; auto; lia.
Qed.

(** X6. Operator names are compared after lower-casing, those of the
    conditions and that of the group: two spellings with the same
    lower-case form compile alike. *)
Theorem operators_are_case_insensitive
    (m : gmap string json) (s1 s2 : string) :
  lower s1 = lower s2 ->
  filter_condition (JObj (<["operator" := JStr s1]> m))
  = filter_condition (JObj (<["operator" := JStr s2]> m)) /\
  build_weaviate_filter (JObj (<["operator" := JStr s1]> m))
  = build_weaviate_filter (JObj (<["operator" := JStr s2]> m)).
Proof.
  intros Hlower. split.
  - unfold filter_condition. simpl.
    rewrite !lookup_insert_eq, !lookup_insert_ne by done. simpl.
    by rewrite Hlower.
  - unfold build_weaviate_filter.
    rewrite !(truthy_object_with _ "operator" _ (lookup_insert_eq _ _ _)).
    simpl. rewrite !lookup_insert_eq, !lookup_insert_ne by done. simpl.
    by rewrite Hlower.
Qed.

(** X7. A condition with a truthy field, a supported operator and a value
    that is not [None] gives exactly one comparison, carrying the field and
    the value as they came: falsy values such as [false], [0] or the empty
    string survive, only [like] asks for a string. *)
Theorem valid_condition_compiles
    (m : gmap string json) (f v : json) (s : string) (cmp : comparison) :
  m !! "field" = Some f -> truthy f = true ->
  m !! "operator" = Some (JStr s) ->
  comparison_named (lower s) operator_table = Some cmp ->
  m !! "value" = Some v -> is_None v = false ->
  (cmp = Like -> isinstance_str v = true) ->
  filter_condition (JObj m) = Ok [ByProperty f cmp v].
Proof. apply filter_condition_passes. Qed.

(** ** The normalizer on whole property dicts *)

(** X8. [process_properties] and [process_single_value], written as two
    separate chains of tests, agree: the former normalizes each value as
    the latter would, keeps the key set, and gives the empty dict for
    [None] and for the empty dict. *)
Theorem process_properties_agrees (properties : option (gmap string pyval)) :
  process_properties properties
  = process_single_value <$> default ∅ properties /\
  dom (process_properties properties) = dom (default ∅ properties).
Proof.
  split; [apply process_properties_fmap|].
  by rewrite process_properties_fmap, dom_fmap_L.
Qed.

Lemma map_fold_andb_true {A} (f : A -> bool) (m : gmap string A) :
  map_fold (fun _ x acc => f x && acc) true m = true <->
  map_Forall (fun _ x => f x = true) m.
Proof.
  apply (map_fold_weak_ind
           (fun b m => b = true <-> map_Forall (fun _ x => f x = true) m)).
  - split; [intros _; apply map_Forall_empty | reflexivity].
  - intros k x m' r Hk IH.
    rewrite andb_true_iff, IH, map_Forall_insert by done. reflexivity.
Qed.

Lemma free_of_timestamps_number (v : pyval) :
  is_number v = true -> free_of_timestamps v = true.
Proof. by destruct v as [[] ?| |]. Qed.

Lemma geo_dict_free_of_timestamps (la lo : pyval) :
  is_number la && is_number lo = true ->
  free_of_timestamps (geo_dict la lo) = true.
Proof.
  intros [Hla Hlo]%andb_true_iff.
  unfold geo_dict. simpl. apply map_fold_andb_true.
  apply map_Forall_insert_2; [by apply free_of_timestamps_number|].
  apply map_Forall_singleton. by apply free_of_timestamps_number.
Qed.

(** X9. After normalization no [datetime] and no [UUID] object is left at
    any depth of a backend value, and every container of the output is a
    plain list or dict. *)
Theorem normalized_free_of_timestamps (x : pyval) :
  backend_value x = true ->
  free_of_timestamps (process_single_value x) = true.
Proof.
  induction x as [a attrs | items attrs IH | entries attrs IH]
    using pyval_nested_ind; intros Hbv;
    simpl in Hbv; apply andb_true_iff in Hbv as [Hgeo Hrest];
    unfold geo_numeric, getattr in Hgeo; simpl in Hgeo.
  - destruct a; simpl; try reflexivity; unfold getattr; simpl;
      destruct (attrs !! "latitude") as [la|];
      destruct (attrs !! "longitude") as [lo|]; simpl; try reflexivity;
      by apply geo_dict_free_of_timestamps.
  - simpl. unfold getattr. simpl.
    destruct (attrs !! "latitude") as [la|];
      destruct (attrs !! "longitude") as [lo|].
    1: by apply geo_dict_free_of_timestamps.
    all: simpl; apply forallb_forall; intros y Hy;
      apply list_elem_of_In, list_elem_of_fmap in Hy as (x & -> & Hx);
      apply (proj1 (Forall_forall _ _) IH x Hx);
      apply (proj1 (forallb_forall _ _) Hrest); by apply list_elem_of_In.
  - apply map_fold_andb_true in Hrest.
    simpl. unfold getattr. simpl.
    destruct (attrs !! "latitude") as [la|];
      destruct (attrs !! "longitude") as [lo|].
    1: by apply geo_dict_free_of_timestamps.
    all: simpl; apply map_fold_andb_true, map_Forall_fmap;
      intros k y Hy; simpl; apply (IH k y Hy), (Hrest k y Hy).
Qed.

(** ** Rows *)

(** X10. Field exclusion reads [exclude_fields] only through the strings it
    holds: entries that are no strings, repeated names and the order of the
    names change nothing in the emitted row. *)
Theorem exclusion_reads_string_names_only
    (fields1 fields2 : list json) (obj : wobject) :
  (forall k, in_exclude_fields fields1 k = in_exclude_fields fields2 k) ->
  search_result_of fields1 obj = search_result_of fields2 obj.
Proof.
  intros Hsame.
  assert (properties (search_result_of fields1 obj)
          = properties (search_result_of fields2 obj)) as Hprops.
  { apply map_eq. intros k.
    by rewrite !filtered_properties_lookup, Hsame. }
  unfold search_result_of in *. cbn [properties] in Hprops.
  by rewrite Hprops.
Qed.

(** X11. Of two rows with a distance, the one the backend puts closer to
    the query never gets the lower score: rounding keeps the order of the
    differences [1.0 - d]. *)
Theorem closer_row_scores_higher
    (exclude_fields : list json) (obj1 obj2 : wobject) (d1 d2 : float) :
  backend_distance obj1 = Some d1 ->
  backend_distance obj2 = Some d2 ->
  (d1 <=? d2)%float = true ->
  (score (search_result_of exclude_fields obj2)
   <=? score (search_result_of exclude_fields obj1))%float = true.
Proof.
  unfold search_result_of, backend_distance. simpl.
  destruct (obj_metadata obj1) as [[[x1|]]|]; simpl; try discriminate.
  destruct (obj_metadata obj2) as [[[x2|]]|]; simpl; try discriminate.
  intros [= ->] [= ->]. apply sub_one_antitone.
Qed.

(** ** The handler, path by path *)

(** X12. A body that is no dict never reaches the client: a falsy body
    ([null], [0], the empty string, list or dict) is answered 400 "must be
    JSON", and a truthy one (a list, a string, a number) raises at
    [data.get] and is answered 500. *)
Theorem body_not_an_object_refused (E : env) (data : json) :
  truthy data && isinstance_dict data = false ->
  query_collection E data
  = (if truthy data
     then {| status := 500;
             payload := ErrorBody InternalServerError
                          (Some (AttributeError (type_name data) "get")) |}
     else {| status := 400; payload := ErrorBody BodyMustBeJson None |},
     []).
Proof.
  intros Hdata. run_handler.
  destruct (truthy data) eqn:Ht; simpl; [|reflexivity].
  destruct data; try discriminate; reflexivity.
Qed.

(** X13. A body object in which [collection_name] or [query] is absent,
    [null] or otherwise falsy is answered with the 400
    missing-required-fields response, before [top_k] and [exclude_fields]
    are read and without a call to the client. *)
Theorem missing_required_field_rejected (E : env) (data : gmap string json) :
  truthy (JObj data) = true ->
  truthy (default JNull (data !! "collection_name"))
  && truthy (default JNull (data !! "query")) = false ->
  query_collection E (JObj data)
  = ({| status := 400; payload := ErrorBody MissingRequiredFields None |}, []).
Proof.
  intros Hdata Hmissing. run_handler. rewrite Hdata. simpl.
  destruct (truthy (default JNull (data !! "collection_name")));
    destruct (truthy (default JNull (data !! "query")));
    try discriminate; reflexivity.
Qed.

(** X14. [top_k] is converted before [exclude_fields] is checked: when
    [int()] raises, the answer is the 500 of the outer handler and not a
    400, whatever [exclude_fields] and [filters] hold, and the client is not
    called. *)
Theorem bad_top_k_answers_500
    (E : env) (data : gmap string json) (collection_name query_text : json)
    (e : exn) :
  data !! "collection_name" = Some collection_name ->
  data !! "query" = Some query_text ->
  truthy collection_name = true -> truthy query_text = true ->
  py_int E (default (JInt 5) (data !! "top_k")) = Raise e ->
  query_collection E (JObj data)
  = ({| status := 500; payload := ErrorBody InternalServerError (Some e) |}, []).
Proof.
  intros Hname Hquery Htname Htquery Htop.
  run_handler.
  rewrite (truthy_object_with _ _ _ Hname), Hname, Hquery. simpl.
  rewrite Htname, Htquery, Htop. reflexivity.
Qed.

(** X15. Once the required fields and [top_k] have passed, an
    [exclude_fields] that is no list ([null], a string, a dict) is answered
    400 and the client is not called. *)
Theorem exclude_fields_must_be_a_list
    (E : env) (data : gmap string json) (collection_name query_text : json)
    (top_k : Z) :
  data !! "collection_name" = Some collection_name ->
  data !! "query" = Some query_text ->
  truthy collection_name = true -> truthy query_text = true ->
  py_int E (default (JInt 5) (data !! "top_k")) = Ok top_k ->
  isinstance_list (default (JArr []) (data !! "exclude_fields")) = false ->
  query_collection E (JObj data)
  = ({| status := 400; payload := ErrorBody ExcludeFieldsNotList None |}, []).
Proof.
  intros Hname Hquery Htname Htquery Htop Hexcl.
  run_handler.
  rewrite (truthy_object_with _ _ _ Hname), Hname, Hquery. simpl.
  rewrite Htname, Htquery, Htop, Hexcl. reflexivity.
Qed.

(** X16. When [client.collections.get] raises, the answer depends on the
    message alone: 404 naming the collection when the message holds
    "Not found: Collection" or "doesn't exist", 500 with the message
    otherwise.  One call has been made, and [filters] is never compiled, so
    that a malformed filter does not change the answer. *)
Theorem collection_failure_answers_404_or_500
    (E : env) (data : gmap string json) (collection_name query_text : json)
    (top_k : Z) (exclude_fields : list json) (msg : string) :
  data !! "collection_name" = Some collection_name ->
  data !! "query" = Some query_text ->
  truthy collection_name = true -> truthy query_text = true ->
  py_int E (default (JInt 5) (data !! "top_k")) = Ok top_k ->
  default (JArr []) (data !! "exclude_fields") = JArr exclude_fields ->
  collections_get E collection_name = Fails msg ->
  query_collection E (JObj data)
  = (if contains "Not found: Collection" msg || contains "doesn't exist" msg
     then {| status := 404;
             payload := ErrorBody (CollectionNotFound collection_name) None |}
     else {| status := 500;
             payload := ErrorBody FailedToAccessCollection
                          (Some (BackendException msg)) |},
     [CollectionsGet collection_name]).
Proof.
  intros Hname Hquery Htname Htquery Htop Hexcl Hget.
  run_handler.
  rewrite (truthy_object_with _ _ _ Hname), Hname, Hquery. simpl.
  rewrite Htname, Htquery, Htop, Hexcl. simpl.
  rewrite Hget. by destruct (_ || _).
Qed.

(** X17. Any exception raised while the filter is compiled is answered
    with the 500 of the outer handler, after the collection has been
    resolved and before any search: the client sees one call. *)
Theorem filter_exception_answers_500
    (E : env) (data : gmap string json) (collection_name query_text : json)
    (top_k : Z) (exclude_fields : list json) (coll : collection) (e : exn) :
  data !! "collection_name" = Some collection_name ->
  data !! "query" = Some query_text ->
  truthy collection_name = true -> truthy query_text = true ->
  py_int E (default (JInt 5) (data !! "top_k")) = Ok top_k ->
  default (JArr []) (data !! "exclude_fields") = JArr exclude_fields ->
  collections_get E collection_name = Returns coll ->
  build_weaviate_filter (default JNull (data !! "filters")) = Raise e ->
  query_collection E (JObj data)
  = ({| status := 500; payload := ErrorBody InternalServerError (Some e) |},
     [CollectionsGet collection_name]).
Proof. apply filter_exception_is_500. Qed.

(** X18. When the search raises, the answer is the 500 of the outer
    handler carrying the client's message; both calls have been made and
    nothing is retried. *)
Theorem search_failure_answers_500
    (E : env) (data : gmap string json) (collection_name query_text : json)
    (top_k : Z) (exclude_fields : list json) (coll : collection)
    (weaviate_filter : option wfilter) (msg : string) :
  data !! "collection_name" = Some collection_name ->
  data !! "query" = Some query_text ->
  truthy collection_name = true -> truthy query_text = true ->
  py_int E (default (JInt 5) (data !! "top_k")) = Ok top_k ->
  default (JArr []) (data !! "exclude_fields") = JArr exclude_fields ->
  collections_get E collection_name = Returns coll ->
  build_weaviate_filter (default JNull (data !! "filters")) = Ok weaviate_filter ->
  near_text E coll query_text top_k weaviate_filter = Fails msg ->
  query_collection E (JObj data)
  = ({| status := 500;
        payload := ErrorBody InternalServerError (Some (BackendException msg)) |},
     [CollectionsGet collection_name;
      NearText coll query_text top_k weaviate_filter]).
Proof.
  intros Hname Hquery Htname Htquery Htop Hexcl Hget Hfilter Hsearch.
  run_handler.
  rewrite (truthy_object_with _ _ _ Hname), Hname, Hquery. simpl.
  rewrite Htname, Htquery, Htop, Hexcl. simpl.
  rewrite Hget, Hfilter. simpl. rewrite Hsearch. reflexivity.
Qed.

(** X19. When validation, the resolution of the collection, the filter
    and the search have gone through, the handler builds one result per row
    of the backend, in the backend's order, and hands them to [jsonify]:
    nothing is re-sorted, dropped or cut at [top_k], which defaults to 5 and
    reaches the client as converted by [int()].  The answer is 200 with
    these results when they serialize, and the 500 of the outer handler when
    [jsonify] raises, as it does on a property value the normalizer left as
    it came.  Both calls to the client have been made by then. *)
Theorem results_follow_rows
    (E : env) (data : gmap string json) (collection_name query_text : json)
    (top_k : Z) (exclude_fields : list json) (coll : collection)
    (weaviate_filter : option wfilter) (objects : list wobject) :
  data !! "collection_name" = Some collection_name ->
  data !! "query" = Some query_text ->
  truthy collection_name = true -> truthy query_text = true ->
  py_int E (default (JInt 5) (data !! "top_k")) = Ok top_k ->
  default (JArr []) (data !! "exclude_fields") = JArr exclude_fields ->
  collections_get E collection_name = Returns coll ->
  build_weaviate_filter (default JNull (data !! "filters")) = Ok weaviate_filter ->
  near_text E coll query_text top_k weaviate_filter = Returns objects ->
  exists results,
    length results = length objects /\
    (forall i, results !! i = search_result_of exclude_fields <$> objects !! i) /\
    query_collection E (JObj data)
    = (match jsonify E results with
       | Returns _ => {| status := 200; payload := ResultsBody results |}
       | Fails msg =>
           {| status := 500;
              payload := ErrorBody InternalServerError
                           (Some (SerializationError msg)) |}
       end,
       [CollectionsGet collection_name;
        NearText coll query_text top_k weaviate_filter]).
Proof.
  intros Hname Hquery Htname Htquery Htop Hexcl Hget Hfilter Hsearch.
  exists (search_result_of exclude_fields <$> objects).
  split; [apply length_fmap|].
  split; [intros i; apply list_lookup_fmap|].
  by eapply query_collection_rows.
Qed.

(** X20. For every request and every client, the handler makes at most two
    calls, the search only after the collection has been resolved, and the
    status tells how far it went: no call under 400, one call under 404, two
    calls under 200, and 500 at any stage. *)
Theorem status_follows_calls (E : env) (data : json) :
  match (query_collection E data).2 with
  | [] =>
      status (query_collection E data).1 = 400 \/
      status (query_collection E data).1 = 500
  | [CollectionsGet _] =>
      status (query_collection E data).1 = 404 \/
      status (query_collection E data).1 = 500
  | [CollectionsGet _; NearText _ _ _ _] =>
      status (query_collection E data).1 = 200 \/
      status (query_collection E data).1 = 500
  | _ => False
  end.
Proof.
  run_handler.
  destruct (truthy data); simpl; [|by left].
  destruct data as [| | | | | |m]; simpl; try by right.
  destruct (truthy (default JNull (m !! "collection_name"))); simpl; [|by left].
  destruct (truthy (default JNull (m !! "query"))); simpl; [|by left].
  destruct (py_int E _); simpl; [|by right].
  destruct (isinstance_list _); simpl; [|by left].
  destruct (collections_get E _) as [coll|msg]; simpl.
  - destruct (build_weaviate_filter _); simpl; [|by right].
    destruct (near_text E _ _ _ _); simpl; [|by right].
    destruct (jsonify E _); simpl; [by left | by right].
  - destruct (_ || _); simpl; [by left | by right].
Qed.

(** ** The health probe *)

(** X21. [/health] answers 200 exactly when [get_meta] returns a dict and
    [is_ready] returns true; the body then reports the [version] entry of
    the metadata, or [null] when the metadata has none. *)
Theorem healthy_iff (H : health_env) :
  ((health_check H).1.1 = 200 <->
   exists meta, get_meta H = Returns (JObj meta) /\ is_ready H = Returns true) /\
  (forall meta,
     get_meta H = Returns (JObj meta) -> is_ready H = Returns true ->
     health_check H
     = (200, Healthy (default JNull (meta !! "version")), [GetMeta; IsReady])).
Proof.
  unfold health_check. split.
  - destruct (get_meta H) as [meta|msg]; simpl.
    + destruct (is_ready H) as [[]|msg]; simpl.
      * destruct meta; simpl; split;
          first [discriminate | by intros (? & [=] & _) | eauto].
      * split; [discriminate | by intros (? & _ & [=])].
      * split; [discriminate | by intros (? & _ & [=])].
    + split; [discriminate | by intros (? & [=] & _)].
  - by intros meta -> ->.
Qed.

(** X22. When [get_meta] raises, [/health] answers 500 with the message
    and never asks [is_ready]; when it returns, readiness alone decides
    between 503 and the healthy path, whatever the metadata holds. *)
Theorem health_probe_order (H : health_env) :
  match get_meta H with
  | Fails msg =>
      health_check H = (500, UnhealthyException (BackendException msg), [GetMeta])
  | Returns meta =>
      (health_check H).2 = [GetMeta; IsReady] /\
      (is_ready H = Returns false ->
       health_check H = (503, UnhealthyNotReady, [GetMeta; IsReady]))
  end.
Proof.
  unfold health_check.
  destruct (get_meta H) as [meta|msg]; simpl; [|reflexivity].
  destruct (is_ready H) as [[]|msg]; simpl.
  - split; [|discriminate]. by destruct (py_get meta "version" JNull).
  - split; [reflexivity | reflexivity].
  - split; [reflexivity | discriminate].
Qed.

(** ** Start-up *)

(** X23. The connection block succeeds exactly when [PASSWORD] is set and
    not empty, [connect_to_local] and [connect] return, and [get_meta]
    returns a dict with a [hostname] entry; every other run ends in a
    [ConnectionError], also when the client is connected and only the
    [hostname] is missing from the metadata. *)
Theorem connected_iff (B : boot_env) (hostname : json) :
  (connect_at_startup B).1 = Connected hostname <->
  exists password meta,
    getenv_password B = Some password /\ password <> "" /\
    (exists u, connect_to_local B password = Returns u) /\
    (exists u, connect B = Returns u) /\
    boot_get_meta B = Returns (JObj meta) /\
    meta !! "hostname" = Some hostname.
Proof.
  unfold connect_at_startup. split.
  - destruct (getenv_password B) as [password|]; [|discriminate].
    destruct (String.eqb_spec password "") as [->|Hne]; [discriminate|].
    destruct (connect_to_local B password) as [u1|] eqn:H1; [|discriminate].
    destruct (connect B) as [u2|] eqn:H2; [|discriminate].
    destruct (boot_get_meta B) as [meta|] eqn:H3; [|discriminate].
    destruct meta as [| | | | | |m]; try discriminate. simpl.
    destruct (m !! "hostname") as [h|] eqn:H4; [|discriminate].
    intros [= <-]. exists password, m. eauto 10.
  - intros (password & meta & -> & Hne & [u1 ->] & [u2 ->] & -> & Hhost).
    destruct (String.eqb_spec password "") as [->|_]; [done|].
    simpl. by rewrite Hhost.
Qed.

(** X24. With [PASSWORD] unset or empty the block raises its
    [ConnectionError] without a single call to the client. *)
Theorem no_password_no_connection (B : boot_env) :
  default "" (getenv_password B) = "" ->
  connect_at_startup B = (ConnectionError PasswordNotFound, []).
Proof.
  unfold connect_at_startup.
  destruct (getenv_password B) as [password|]; simpl; [|reflexivity].
  by intros ->.
Qed.

End Properties.

Lemma string_condition_fails_request_witness :
  collections_get sample_env (JStr "Docs") = Returns (Collection "Docs") /\
  query_collection sample_env request_string_condition
  = ({| status := 500;
        payload := ErrorBody InternalServerError
                     (Some (AttributeError "str" "get")) |},
     [CollectionsGet (JStr "Docs")]).
Proof.
  split; [reflexivity|].
  apply (string_condition_fails_request sample_env (Collection "Docs")).
  reflexivity.
Defined.

Lemma numeric_operator_condition_raises_witness :
  collections_get sample_env (JStr "Docs") = Returns (Collection "Docs") /\
  unsupported_operator condition_numeric_operator = true /\
  build_weaviate_filter (JObj filters_numeric_operator)
  = Raise (AttributeError "int" "lower") /\
  query_collection sample_env (JObj request_numeric_operator)
  = ({| status := 500;
        payload := ErrorBody InternalServerError
                     (Some (AttributeError "int" "lower")) |},
     [CollectionsGet (JStr "Docs")]).
Proof.
  split; [reflexivity|].
  apply (numeric_operator_condition_raises sample_env (Collection "Docs")).
  reflexivity.
Defined.

Lemma null_group_operator_raises_witness :
  collections_get sample_env (JStr "Docs") = Returns (Collection "Docs") /\
  filter_condition (condition "year" "gte" (JInt 2020))
  = Ok [ByProperty (JStr "year") GreaterOrEqual (JInt 2020)] /\
  operator_is_or filters_null_operator = false /\
  build_weaviate_filter (JObj filters_null_operator)
  = Raise (AttributeError "NoneType" "lower") /\
  query_collection sample_env (JObj request_null_operator)
  = ({| status := 500;
        payload := ErrorBody InternalServerError
                     (Some (AttributeError "NoneType" "lower")) |},
     [CollectionsGet (JStr "Docs")]).
Proof.
  split; [reflexivity|].
  apply (null_group_operator_raises sample_env (Collection "Docs")).
  reflexivity.
Defined.

(** C5 fails as stated: the row [far_object], at distance 1.5, is emitted
    with the score -0.5. *)
Lemma far_object_score_outside_unit_interval :
  exists r tr,
    query_collection sample_env
      (JObj {[ "collection_name" := JStr "Docs"; "query" := JStr "hello" ]})
    = ({| status := 200; payload := ResultsBody [r] |}, tr) /\
    score r = (-0.5)%float /\
    ~ in_unit_interval (score r).
Proof.
  exists (search_result_of [] far_object),
         [CollectionsGet (JStr "Docs");
          NearText (Collection "Docs") (JStr "hello") 5 None].
  split.
  - rewrite (query_collection_rows sample_env _ (JStr "Docs") (JStr "hello") 5
               [] (Collection "Docs") None [far_object]);
      first [reflexivity | vm_compute; reflexivity].
  - split; [reflexivity|].
    intros [Hlow _]. vm_compute in Hlow. discriminate.
Qed.

Lemma score_in_unit_interval_witness :
  in_unit_interval 0.25%float /\
  in_unit_interval (score (search_result_of [JStr "title"] near_object)).
Proof.
  split; [split; reflexivity|].
  apply (score_in_unit_interval [JStr "title"] near_object).
  split; reflexivity.
Defined.

(** Scenario 1 of the specification, in binary64: the rows at distance 0.1
    and 0.4 are emitted with the scores 0.9 and 0.6, and a row at distance
    0.0 with the score 1.0. *)
Example scenario_one_scores :
  score (search_result_of [] (row_at 0x1.999999999999ap-4)) = 0x1.ccccccccccccdp-1%float /\
  score (search_result_of [] (row_at 0x1.999999999999ap-2)) = 0x1.3333333333333p-1%float /\
  score (search_result_of [] (row_at 0)) = 1%float.
Proof. repeat split. Qed.

(** ** Witnesses *)

Lemma process_single_value_idempotent_witness :
  backend_value sample_property = true /\
  process_single_value (process_single_value sample_property)
  = process_single_value sample_property.
Proof.
  split; [vm_compute; reflexivity|].
  apply (process_single_value_idempotent sample_property).
  vm_compute; reflexivity.
Defined.

Lemma invalid_conditions_are_skipped_witness :
  str_or_absent sample_or_spec "operator" = true /\
  forallb skipped_condition sample_invalid_conditions = true /\
  build_weaviate_filter
    (with_conditions sample_or_spec
       ([condition "status" "eq" (JStr "active")]
        ++ sample_invalid_conditions
        ++ [condition "year" "gte" (JInt 2020)]))
  = build_weaviate_filter
      (with_conditions sample_or_spec
         ([condition "status" "eq" (JStr "active")]
          ++ [condition "year" "gte" (JInt 2020)])) /\
  build_weaviate_filter (with_conditions sample_or_spec sample_invalid_conditions)
  = Ok None.
Proof.
  split; [vm_compute; reflexivity|].
  split; [vm_compute; reflexivity|].
  apply (invalid_conditions_are_skipped sample_or_spec
           [condition "status" "eq" (JStr "active")]
           sample_invalid_conditions
           [condition "year" "gte" (JInt 2020)]);
    vm_compute; reflexivity.
Defined.

Lemma surviving_conditions_form_one_group_witness :
  surviving sample_and_conditions
  = [ByProperty (JStr "status") Equal (JStr "active");
     ByProperty (JStr "year") GreaterOrEqual (JInt 2020)] /\
  operator_is_or sample_and_spec = false /\
  (build_weaviate_filter (JObj sample_and_spec)
   = Ok (Some (flat_group (operator_is_or sample_and_spec)
                          (surviving sample_and_conditions)))
   /\ Forall (fun f => exists field cmp value, f = ByProperty field cmp value)
             (surviving sample_and_conditions)).
Proof.
  split; [vm_compute; reflexivity|].
  split; [vm_compute; reflexivity|].
  apply (surviving_conditions_form_one_group sample_and_spec sample_and_conditions);
    try (vm_compute; reflexivity).
  vm_compute. discriminate.
Defined.

Lemma normalizer_first_match_wins_witness :
  matches located_list Sequence = true /\
  normalized_as GeoPoint located_list (process_single_value located_list) /\
  normalized_as GeoPoint located_list (process_property located_list).
Proof.
  split; [reflexivity|].
  apply (normalizer_first_match_wins located_list [Timestamp; Identifier]
           [Sequence; Mapping; Unchanged] GeoPoint);
    vm_compute; reflexivity.
Defined.

Lemma exclusion_removes_named_keys_only_witness :
  properties (search_result_of [JStr "title"] near_object) !! "title" = None /\
  properties (search_result_of [JStr "title"] near_object) !! "meta"
  = Some (PDict {[ "title" := PStr "inner" ]} ∅).
Proof.
  split.
  - apply (exclusion_removes_named_keys_only [JStr "title"] near_object "title").
    apply list_elem_of_singleton. reflexivity.
  - rewrite (proj2 (exclusion_removes_named_keys_only
                      [JStr "title"] near_object "meta")).
    + vm_compute. reflexivity.
    + intros Hin. apply list_elem_of_singleton in Hin. discriminate.
Defined.

Lemma empty_required_field_rejected_witness :
  request_empty_query !! "query" = Some (JStr "") /\
  query_collection sample_env (JObj request_empty_query)
  = ({| status := 400; payload := ErrorBody MissingRequiredFields None |}, []).
Proof.
  split; [vm_compute; reflexivity|].
  apply (empty_required_field_rejected sample_env request_empty_query).
  right. vm_compute; reflexivity.
Defined.

(** ** Worked inputs *)

(** Scenario 2 of the specification: the only condition has the operator
    "bogus"; the search runs with no filter and the request succeeds. *)
Example bogus_operator_searches_unfiltered :
  query_collection sample_env request_bogus_operator
  = ({| status := 200;
        payload := ResultsBody [search_result_of [] far_object] |},
     [CollectionsGet (JStr "Docs");
      NearText (Collection "Docs") (JStr "hello") 5 None]).
Proof.
  unfold request_bogus_operator.
  rewrite (query_collection_rows sample_env _ (JStr "Docs") (JStr "hello") 5
             [] (Collection "Docs") None [far_object]);
    first [reflexivity | vm_compute; reflexivity].
Qed.

(** A list carrying both accessors is of the kinds [GeoPoint] and
    [Sequence]; it is normalized as the former. *)
Example located_list_is_a_geo_point :
  matches located_list GeoPoint = true /\
  matches located_list Sequence = true /\
  process_single_value located_list
  = geo_dict (PAtom (AFloat (1 # 2)%Q) ∅) (PAtom (AFloat 0) ∅).
Proof. repeat split; vm_compute; reflexivity. Qed.

(** A dict with the keys "latitude" and "longitude" has no such accessors:
    the output of the geo branch is a mapping for the normalizer. *)
Example geo_dict_is_a_mapping (la lo : pyval) :
  matches (geo_dict la lo) GeoPoint = false /\
  matches (geo_dict la lo) Mapping = true.
Proof. split; reflexivity. Qed.

(** The accessors are copied as they are.  On [dated_accessors], which is
    not a value of the backend, the flat copy holds a raw timestamp that a
    second pass turns into a string. *)
Example accessors_are_copied_unprocessed :
  backend_value dated_accessors = false /\
  process_single_value (process_single_value dated_accessors)
  <> process_single_value dated_accessors.
Proof.
  split; [vm_compute; reflexivity|].
  intros Heq.
  assert (forall v, v = process_single_value dated_accessors ->
            match v with
            | PDict entries _ =>
                entries !! "latitude" = Some (PAtom (ADatetime "2024-05-01T10:00:00") ∅)
            | _ => False
            end) as Hraw by (intros v ->; vm_compute; reflexivity).
  specialize (Hraw _ Heq). vm_compute in Hraw. discriminate.
Qed.

Lemma first_raising_condition_aborts_witness :
  str_or_absent sample_or_spec "operator" = true /\
  forallb condition_object sample_and_conditions = true /\
  filter_condition (JInt 7) = Raise (AttributeError "int" "get") /\
  build_weaviate_filter
    (with_conditions sample_or_spec
       (sample_and_conditions ++ JInt 7 :: sample_invalid_conditions))
  = Raise (AttributeError "int" "get").
Proof.
  split; [vm_compute; reflexivity|].
  split; [vm_compute; reflexivity|].
  split; [reflexivity|].
  apply (first_raising_condition_aborts sample_or_spec sample_and_conditions
           sample_invalid_conditions (JInt 7));
    vm_compute; reflexivity.
Defined.

Lemma non_string_group_operator_raises_witness :
  ({[ "operator" := JNull ]} : gmap string json) !! "operator" = Some JNull /\
  isinstance_str JNull = false /\
  build_weaviate_filter (JObj {[ "operator" := JNull ]})
  = Raise (AttributeError "NoneType" "lower").
Proof.
  split; [vm_compute; reflexivity|].
  split; [reflexivity|].
  apply (non_string_group_operator_raises {[ "operator" := JNull ]} JNull);
    vm_compute; reflexivity.
Defined.

Lemma no_condition_no_filter_witness :
  names_no_condition (JObj {[ "operator" := JStr "Or";
                              "conditions" := JStr "year > 2020" ]}) = true /\
  build_weaviate_filter (JObj {[ "operator" := JStr "Or";
                                 "conditions" := JStr "year > 2020" ]})
  = Ok None.
Proof.
  split; [vm_compute; reflexivity|].
  apply (no_condition_no_filter
           (JObj {[ "operator" := JStr "Or"; "conditions" := JStr "year > 2020" ]})).
  vm_compute; reflexivity.
Defined.

Lemma compiled_filter_shape_witness :
  build_weaviate_filter (JObj sample_and_spec)
  = Ok (Some (AllOf [ByProperty (JStr "status") Equal (JStr "active");
                     ByProperty (JStr "year") GreaterOrEqual (JInt 2020)])) /\
  exists cs,
    forallb valid_leaf cs = true /\
    ((cs = [AllOf [ByProperty (JStr "status") Equal (JStr "active");
                   ByProperty (JStr "year") GreaterOrEqual (JInt 2020)]]) \/
     (2 <= length cs /\
      (AllOf [ByProperty (JStr "status") Equal (JStr "active");
              ByProperty (JStr "year") GreaterOrEqual (JInt 2020)] = AnyOf cs \/
       AllOf [ByProperty (JStr "status") Equal (JStr "active");
              ByProperty (JStr "year") GreaterOrEqual (JInt 2020)] = AllOf cs))).
Proof.
  split; [vm_compute; reflexivity|].
  apply (compiled_filter_shape (JObj sample_and_spec)).
  vm_compute. reflexivity.
Defined.

(** With a [lower] that knows the Kelvin sign, the operator spelled with it
    is [like]. *)
Example kelvin_sign_spells_like :
  @filter_condition kelvin_strings
    (condition "title" (String.append "LI" (String.append kelvin_sign "E"))
       (JStr "a%"))
  = Ok [ByProperty (JStr "title") Like (JStr "a%")].
Proof. vm_compute. reflexivity. Qed.

(** One surviving condition: the compiled filter is the comparison. *)
Example lone_condition_is_not_grouped :
  build_weaviate_filter
    (JObj {[ "operator" := JStr "Or";
             "conditions" := JArr [condition "year" "gte" (JInt 2020)] ]})
  = Ok (Some (ByProperty (JStr "year") GreaterOrEqual (JInt 2020))).
Proof. vm_compute. reflexivity. Qed.

Lemma operators_are_case_insensitive_witness :
  lower "GtE" = lower "gte" /\
  filter_condition
    (JObj (<["operator" := JStr "GtE"]>
             {[ "field" := JStr "year"; "value" := JInt 2020 ]}))
  = filter_condition
      (JObj (<["operator" := JStr "gte"]>
               {[ "field" := JStr "year"; "value" := JInt 2020 ]})).
Proof.
  split; [reflexivity|].
  apply (operators_are_case_insensitive
           {[ "field" := JStr "year"; "value" := JInt 2020 ]} "GtE" "gte").
  reflexivity.
Defined.

Lemma valid_condition_compiles_witness :
  filter_condition (condition "archived" "NEQ" (JBool false))
  = Ok [ByProperty (JStr "archived") NotEqual (JBool false)].
Proof.
  apply (valid_condition_compiles _ (JStr "archived") (JBool false) "NEQ" NotEqual);
    first [vm_compute; reflexivity | discriminate].
Defined.

Lemma normalized_free_of_timestamps_witness :
  backend_value sample_property = true /\
  free_of_timestamps sample_property = false /\
  free_of_timestamps (process_single_value sample_property) = true.
Proof.
  split; [vm_compute; reflexivity|].
  split; [vm_compute; reflexivity|].
  apply (normalized_free_of_timestamps sample_property).
  vm_compute; reflexivity.
Defined.

Lemma exclusion_reads_string_names_only_witness :
  search_result_of [JInt 1; JStr "meta"; JNull; JStr "title"; JStr "meta"] near_object
  = search_result_of [JStr "title"; JStr "meta"] near_object.
Proof.
  apply (exclusion_reads_string_names_only
           [JInt 1; JStr "meta"; JNull; JStr "title"; JStr "meta"]
           [JStr "title"; JStr "meta"] near_object).
  intros k. unfold in_exclude_fields. simpl.
  destruct (String.eqb k "meta"), (String.eqb k "title"); reflexivity.
Defined.

Lemma closer_row_scores_higher_witness :
  (0.25 <=? 1.5)%float = true /\
  (score (search_result_of [] far_object)
   <=? score (search_result_of [] near_object))%float = true.
Proof.
  split; [reflexivity|].
  apply (closer_row_scores_higher [] near_object far_object 0.25 1.5);
    reflexivity.
Defined.

Lemma body_not_an_object_refused_witness :
  status (query_collection sample_env (JArr [JStr "Docs"])).1 = 500 /\
  (query_collection sample_env (JArr [JStr "Docs"])).2 = [] /\
  status (query_collection sample_env (JObj ∅)).1 = 400.
Proof.
  rewrite (body_not_an_object_refused sample_env (JArr [JStr "Docs"]) eq_refl).
  rewrite (body_not_an_object_refused sample_env (JObj ∅))
    by (vm_compute; reflexivity).
  repeat split.
Defined.

Lemma missing_required_field_rejected_witness :
  query_collection sample_env
    (JObj {[ "collection_name" := JStr "Docs"; "top_k" := JStr "many" ]})
  = ({| status := 400; payload := ErrorBody MissingRequiredFields None |}, []).
Proof.
  apply (missing_required_field_rejected sample_env
           {[ "collection_name" := JStr "Docs"; "top_k" := JStr "many" ]});
    vm_compute; reflexivity.
Defined.

Lemma bad_top_k_answers_500_witness :
  query_collection sample_env
    (JObj (docs_request {[ "top_k" := JNull; "exclude_fields" := JStr "title" ]}))
  = ({| status := 500;
        payload := ErrorBody InternalServerError (Some (IntConversionError JNull)) |},
     []).
Proof.
  apply (bad_top_k_answers_500 sample_env _ (JStr "Docs") (JStr "hello"));
    vm_compute; reflexivity.
Defined.

Lemma exclude_fields_must_be_a_list_witness :
  query_collection sample_env
    (JObj (docs_request {[ "exclude_fields" := JStr "title" ]}))
  = ({| status := 400; payload := ErrorBody ExcludeFieldsNotList None |}, []).
Proof.
  apply (exclude_fields_must_be_a_list sample_env _ (JStr "Docs") (JStr "hello") 5);
    vm_compute; reflexivity.
Defined.

Lemma collection_failure_answers_404_or_500_witness :
  query_collection (docs_env "Collection Notes doesn't exist in the schema")
    (JObj {[ "collection_name" := JStr "Notes"; "query" := JStr "hello";
             "filters" := JObj {[ "conditions" := JArr [JInt 7] ]} ]})
  = ({| status := 404;
        payload := ErrorBody (CollectionNotFound (JStr "Notes")) None |},
     [CollectionsGet (JStr "Notes")]).
Proof.
  refine (eq_trans
            (collection_failure_answers_404_or_500
               (docs_env "Collection Notes doesn't exist in the schema")
               _ (JStr "Notes") (JStr "hello") 5 []
               "Collection Notes doesn't exist in the schema" _ _ _ _ _ _ _) _);
    vm_compute; reflexivity.
Defined.

Lemma filter_exception_answers_500_witness :
  query_collection sample_env
    (JObj (docs_request
             {[ "filters" :=
                  JObj {[ "operator" := JInt 1;
                          "conditions" :=
                            JArr [condition "year" "gte" (JInt 2020)] ]} ]}))
  = ({| status := 500;
        payload := ErrorBody InternalServerError
                     (Some (AttributeError "int" "lower")) |},
     [CollectionsGet (JStr "Docs")]).
Proof.
  apply (filter_exception_answers_500 sample_env _ (JStr "Docs") (JStr "hello")
           5 [] (Collection "Docs"));
    vm_compute; reflexivity.
Defined.

Lemma search_failure_answers_500_witness :
  query_collection failing_search_env (JObj (docs_request ∅))
  = ({| status := 500;
        payload := ErrorBody InternalServerError
                     (Some (BackendException "connection reset")) |},
     [CollectionsGet (JStr "Docs");
      NearText (Collection "Docs") (JStr "hello") 5 None]).
Proof.
  apply (search_failure_answers_500 failing_search_env _ (JStr "Docs")
           (JStr "hello") 5 [] (Collection "Docs") None "connection reset");
    vm_compute; reflexivity.
Defined.

Lemma results_follow_rows_witness :
  exists results,
    length results = length [near_object; far_object] /\
    (forall i, results !! i
               = search_result_of [JStr "meta"] <$> [near_object; far_object] !! i) /\
    query_collection (docs_env "")
      (JObj (docs_request {[ "top_k" := JFloat (5 # 2);
                             "exclude_fields" := JArr [JStr "meta"] ]}))
    = (match jsonify (docs_env "") results with
       | Returns _ => {| status := 200; payload := ResultsBody results |}
       | Fails msg =>
           {| status := 500;
              payload := ErrorBody InternalServerError
                           (Some (SerializationError msg)) |}
       end,
       [CollectionsGet (JStr "Docs");
        NearText (Collection "Docs") (JStr "hello") 2 None]).
Proof.
  apply (results_follow_rows (docs_env "") _ (JStr "Docs") (JStr "hello") 2
           [JStr "meta"] (Collection "Docs") None [near_object; far_object]);
    vm_compute; reflexivity.
Defined.

(** A row with a property the normalizer leaves as it came, on a [jsonify]
    that refuses it: the search has run and the answer is 500. *)
Example unserializable_row_answers_500 :
  query_collection unserializable_env (JObj (docs_request ∅))
  = ({| status := 500;
        payload := ErrorBody InternalServerError
                     (Some (SerializationError
                              "Object of type PhoneNumber is not JSON serializable")) |},
     [CollectionsGet (JStr "Docs");
      NearText (Collection "Docs") (JStr "hello") 5 None]).
Proof. vm_compute. reflexivity. Qed.

(** A ready client whose metadata carries no version. *)
Lemma healthy_iff_witness :
  health_check {| get_meta := Returns (JObj {[ "hostname" := JStr "node1" ]});
                  is_ready := Returns true |}
  = (200, Healthy JNull, [GetMeta; IsReady]).
Proof.
  refine (eq_trans
            (proj2 (healthy_iff
                      {| get_meta := Returns (JObj {[ "hostname" := JStr "node1" ]});
                         is_ready := Returns true |})
                   {[ "hostname" := JStr "node1" ]} eq_refl eq_refl) _).
  vm_compute. reflexivity.
Defined.

(** A client that is up but not ready, with metadata that is no dict. *)
Lemma health_probe_order_witness :
  health_check {| get_meta := Returns JNull; is_ready := Returns false |}
  = (503, UnhealthyNotReady, [GetMeta; IsReady]).
Proof.
  apply (health_probe_order
           {| get_meta := Returns JNull; is_ready := Returns false |}).
  reflexivity.
Defined.

Lemma connected_iff_witness :
  (connect_at_startup
     {| getenv_password := Some "secret";
        connect_to_local := fun _ => Returns tt;
        connect := Returns tt;
        boot_get_meta := Returns (JObj {[ "hostname" := JStr "node1" ]}) |}).1
  = Connected (JStr "node1").
Proof.
  apply (proj2 (connected_iff
    {| getenv_password := Some "secret";
       connect_to_local := fun _ => Returns tt;
       connect := Returns tt;
       boot_get_meta := Returns (JObj {[ "hostname" := JStr "node1" ]}) |}
    (JStr "node1"))).
  exists "secret", {[ "hostname" := JStr "node1" ]}.
  repeat split; first [discriminate | by exists tt | vm_compute; reflexivity].
Defined.

Lemma no_password_no_connection_witness :
  connect_at_startup
    {| getenv_password := Some "";
       connect_to_local := fun _ => Returns tt;
       connect := Returns tt;
       boot_get_meta := Returns (JObj {[ "hostname" := JStr "node1" ]}) |}
  = (ConnectionError PasswordNotFound, []).
Proof.
  apply (no_password_no_connection
           {| getenv_password := Some "";
              connect_to_local := fun _ => Returns tt;
              connect := Returns tt;
              boot_get_meta := Returns (JObj {[ "hostname" := JStr "node1" ]}) |}).
  reflexivity.
Defined.
